(** * Kanban board over a remote task store: model and properties

    A shallow embedding of the board controller ([KanbanBoard.tsx]), of
    the column view ([Column.tsx]) and of the card's save action
    ([Card.tsx]).  JavaScript strings are sequences of
    UTF-16 code units; handlers are programs over the effects the source
    performs (remote queries, React state setters, toasts), run against an
    arbitrary answer of the remote store. *)

From stdpp Require Import gmap list strings.
From Stdlib Require Import NArith Ascii.

(** ** The JavaScript runtime pieces the components rely on *)

Module JS.

(** A string value: its UTF-16 code units. *)
Abbreviation jsstring := (list N).

(** A string literal of the source (ASCII only). *)
Definition lit (s : string) : jsstring :=
  (λ a, N_of_ascii a) <$> String.list_ascii_of_string s.

(** [ToBoolean] on a string: only the empty string is falsy. *)
Definition truthy (s : jsstring) : bool :=
  match s with [] => false | _ :: _ => true end.

(** Code units that [String.prototype.trim] strips: the ECMAScript
    WhiteSpace and LineTerminator productions. *)
Definition isWhiteSpace (c : N) : bool :=
  ((9 <=? c) && (c <=? 13) || (c =? 32) || (c =? 160) || (c =? 5760)
   || (8192 <=? c) && (c <=? 8202) || (c =? 8232) || (c =? 8233)
   || (c =? 8239) || (c =? 8287) || (c =? 12288) || (c =? 65279))%N.

Fixpoint trimStart (s : jsstring) : jsstring :=
  match s with
  | [] => []
  | c :: s' => if isWhiteSpace c then trimStart s' else s
  end.

Definition trimEnd (s : jsstring) : jsstring :=
  reverse (trimStart (reverse s)).

Definition trim (s : jsstring) : jsstring := trimEnd (trimStart s).

Fixpoint startsWith (s p : jsstring) {struct p} : bool :=
  match p, s with
  | [], _ => true
  | _ :: _, [] => false
  | a :: p', b :: s' => (b =? a)%N && startsWith s' p'
  end.

(** [s.includes(p)]: [p] occurs in [s] at some position. *)
Fixpoint includes (s p : jsstring) : bool :=
  startsWith s p ||
  match s with
  | [] => false
  | _ :: s' => includes s' p
  end.

(** [String.prototype.toLowerCase] follows the Unicode case mapping
    tables, which are part of the runtime.  It is taken as an interface;
    the one law recorded is its behaviour on ASCII text. *)
Definition asciiLower (c : N) : N :=
  if ((65 <=? c) && (c <=? 90))%N then (c + 32)%N else c.

Definition isAscii (c : N) : Prop := (c < 128)%N.

Class CaseConversion := {
  toLowerCase : jsstring → jsstring;
  toLowerCase_ascii s : Forall isAscii s → toLowerCase s = asciiLower <$> s
}.

(** The conversion that lowers 'A'..'Z' and leaves every other code unit. *)
#[export] Instance asciiCaseConversion : CaseConversion | 100 :=
  {| toLowerCase s := asciiLower <$> s;
     toLowerCase_ascii s _ := eq_refl |}.

(** [err instanceof Error ? err.message : fallback] reads two things off a
    thrown value. *)
Record Thrown := { instanceofError : bool; message : jsstring }.

Definition errorMessage (err : Thrown) (fallback : jsstring) : jsstring :=
  if instanceofError err then message err else fallback.

End JS.
Import JS.

(** ** Data model ([KanbanBoard.tsx], type [Task]) *)

Inductive Priority := low | medium | high.

(** The fields the type declares.  Rows of the store carry further columns
    (such as [created_at]); no handler reads or writes them. *)
Record Task := {
  id : jsstring;
  title : jsstring;
  description : jsstring;
  status : jsstring;
  priority : Priority;
  assignee : option jsstring
}.

(** [Partial<Task>]: every key may be absent.  [assignee] is optional in
    [Task] itself, so a present key may carry [undefined]. *)
Record PartialTask := {
  upd_id : option jsstring;
  upd_title : option jsstring;
  upd_description : option jsstring;
  upd_status : option jsstring;
  upd_priority : option Priority;
  upd_assignee : option (option jsstring)
}.

(** The object literal [{ status: v }]. *)
Definition onlyStatus (v : jsstring) : PartialTask :=
  {| upd_id := None; upd_title := None; upd_description := None;
     upd_status := Some v; upd_priority := None; upd_assignee := None |}.

(** The object spread [{ ...task, ...updates }]: keys of [updates] win. *)
Definition spread (task : Task) (updates : PartialTask) : Task :=
  {| id := default (id task) (upd_id updates);
     title := default (title task) (upd_title updates);
     description := default (description task) (upd_description updates);
     status := default (status task) (upd_status updates);
     priority := default (priority task) (upd_priority updates);
     assignee := default (assignee task) (upd_assignee updates) |}.

(** The record [handleAddTask] sends to the store; it has no [id] key. *)
Record NewTask := {
  new_title : jsstring;
  new_description : jsstring;
  new_status : jsstring;
  new_priority : Priority
}.

#[global] Instance Priority_eq_dec : EqDecision Priority.
Proof. solve_decision. Defined.
#[global] Instance Task_eq_dec : EqDecision Task.
Proof. solve_decision. Defined.

(** ** The remote store as seen through the supabase client *)

Module Supabase.

(** An awaited promise either fulfils or rejects. *)
Inductive Settled (R : Type) :=
| Fulfilled (r : R)
| Rejected (reason : Thrown).
#[global] Arguments Fulfilled {R} r.
#[global] Arguments Rejected {R} reason.

(** The [{ data, error }] object a query resolves to. *)
Record Response (D : Type) := {
  data : option D;
  error : option Thrown
}.
#[global] Arguments data {D} _.
#[global] Arguments error {D} _.

(** The four query chains of [KanbanBoard.tsx], indexed by the type of
    their [data]. *)
Inductive Query : Type → Type :=
| SelectOrdered : Query (list Task)
    (* from('tasks').select('*').order('created_at', { ascending: true }) *)
| InsertSingle (row : NewTask) : Query Task
    (* from('tasks').insert([row]).select().single() *)
| UpdateEq (updates : PartialTask) (taskId : jsstring) : Query unit
    (* from('tasks').update(updates).eq('id', taskId) *)
| DeleteEq (taskId : jsstring) : Query unit.
    (* from('tasks').delete().eq('id', taskId) *)

(** What the store answers to each query: any behaviour at all. *)
Record Store := {
  onSelect : Settled (Response (list Task));
  onInsert : NewTask → Settled (Response Task);
  onUpdate : PartialTask → jsstring → Settled (Response unit);
  onDelete : jsstring → Settled (Response unit)
}.

Definition answer (s : Store) {D} (q : Query D) : Settled (Response D) :=
  match q in Query D return Settled (Response D) with
  | SelectOrdered => onSelect s
  | InsertSingle row => onInsert s row
  | UpdateEq updates taskId => onUpdate s updates taskId
  | DeleteEq taskId => onDelete s taskId
  end.

(** What a failed call leaves to throw: the rejection reason, or the
    [error] the promise resolved with. *)
Definition failure {D} (r : Settled (Response D)) : option Thrown :=
  match r with
  | Rejected reason => Some reason
  | Fulfilled resp => error resp
  end.

Definition failed {D} (r : Settled (Response D)) : bool :=
  match failure r with Some _ => true | None => false end.

End Supabase.
Import Supabase.

(** ** Handlers as programs over their effects *)

Inductive Eff : Type → Type :=
| Await {D} (q : Query D) : Eff (Settled (Response D))
| SetTasks (v : list Task) : Eff unit
| SetActiveId (v : option jsstring) : Eff unit
| SetIsLoading (v : bool) : Eff unit
| SetError (v : option jsstring) : Eff unit
| ToastSuccess (msg : jsstring) : Eff unit
| ToastError (msg : jsstring) : Eff unit.

Inductive Prog (A : Type) : Type :=
| Ret (a : A)
| Throw (err : Thrown)
| Vis {X : Type} (e : Eff X) (k : X → Prog A).
Arguments Ret {A} a.
Arguments Throw {A} err.
Arguments Vis {A X} e k.

Fixpoint bind {A B} (p : Prog A) (f : A → Prog B) : Prog B :=
  match p with
  | Ret a => f a
  | Throw err => Throw err
  | Vis e k => Vis e (λ x, bind (k x) f)
  end.

#[global] Instance Prog_ret : MRet Prog := @Ret.
#[global] Instance Prog_bind : MBind Prog := λ A B f p, bind p f.

(** [try { body } catch (err) { handler err }] *)
Fixpoint try_catch {A} (body : Prog A) (handler : Thrown → Prog A) : Prog A :=
  match body with
  | Ret a => Ret a
  | Throw err => handler err
  | Vis e k => Vis e (λ x, try_catch (k x) handler)
  end.

Definition trigger {X} (e : Eff X) : Prog X := Vis e Ret.

(** [await query]: a rejected promise throws its reason. *)
Definition await {D} (q : Query D) : Prog (Response D) :=
  r ← trigger (Await q);
  match r with
  | Fulfilled resp => Ret resp
  | Rejected reason => Throw reason
  end.

(** [if (supabaseError) { throw supabaseError; }] *)
Definition throwIfError {D} (resp : Response D) : Prog unit :=
  match error resp with
  | Some supabaseError => Throw supabaseError
  | None => Ret tt
  end.

(** ** Component state and the execution of a handler *)

(** The [useState] cells of [KanbanBoard]. *)
Record Board := {
  tasks : list Task;
  activeId : option jsstring;
  searchQuery : jsstring;
  isLoading : bool;
  error : option jsstring
}.

Definition initialBoard : Board :=
  {| tasks := []; activeId := None; searchQuery := [];
     isLoading := true; error := None |}.

(** What an observer outside the component sees of a handler. *)
Inductive Event :=
| Remote {D} (q : Query D) (r : Settled (Response D))
| Toast (success : bool) (msg : jsstring).

Record World := { board : Board; trace : list Event }.

Definition setBoard (f : Board → Board) (w : World) : World :=
  {| board := f (board w); trace := trace w |}.

Definition emit (ev : Event) (w : World) : World :=
  {| board := board w; trace := trace w ++ [ev] |}.

(** The state setters: each replaces one cell. *)
Definition withTasks (v : list Task) (b : Board) : Board :=
  {| tasks := v; activeId := activeId b; searchQuery := searchQuery b;
     isLoading := isLoading b; error := error b |}.

Definition withActiveId (v : option jsstring) (b : Board) : Board :=
  {| tasks := tasks b; activeId := v; searchQuery := searchQuery b;
     isLoading := isLoading b; error := error b |}.

Definition withIsLoading (v : bool) (b : Board) : Board :=
  {| tasks := tasks b; activeId := activeId b; searchQuery := searchQuery b;
     isLoading := v; error := error b |}.

Definition withError (v : option jsstring) (b : Board) : Board :=
  {| tasks := tasks b; activeId := activeId b; searchQuery := searchQuery b;
     isLoading := isLoading b; error := v |}.

Definition perform (s : Store) {X} (e : Eff X) (w : World) : X * World :=
  match e in Eff X return X * World with
  | Await q => let r := answer s q in (r, emit (Remote q r) w)
  | SetTasks v => (tt, setBoard (withTasks v) w)
  | SetActiveId v => (tt, setBoard (withActiveId v) w)
  | SetIsLoading v => (tt, setBoard (withIsLoading v) w)
  | SetError v => (tt, setBoard (withError v) w)
  | ToastSuccess msg => (tt, emit (Toast true msg) w)
  | ToastError msg => (tt, emit (Toast false msg) w)
  end.

Inductive Outcome (A : Type) :=
| Returned (a : A)
| Uncaught (err : Thrown).
Arguments Returned {A} a.
Arguments Uncaught {A} err.

Fixpoint exec {A} (s : Store) (p : Prog A) (w : World) : Outcome A * World :=
  match p with
  | Ret a => (Returned a, w)
  | Throw err => (Uncaught err, w)
  | Vis e k => let '(x, w') := perform s e w in exec s (k x) w'
  end.

(** A handler created by the render of board [b], run to completion with
    no other state change in between. *)
Definition run (s : Store) (p : Prog unit) (b : Board) : Outcome unit * World :=
  exec s p {| board := b; trace := [] |}.

Definition isFailedCall (ev : Event) : bool :=
  match ev with Remote _ r => failed r | Toast _ _ => false end.

Definition isFailureToast (ev : Event) : bool :=
  match ev with Toast false _ => true | _ => false end.

(** ** The board controller ([KanbanBoard.tsx]) *)

Module KanbanBoard.

Definition defaultColumns : list jsstring :=
  [lit "Todo"; lit "In Progress"; lit "Done"].

Record DragEndEvent := {
  active : jsstring;          (* event.active.id *)
  over : option jsstring      (* event.over && event.over.id *)
}.

Definition fetchTasks : Prog unit :=
  try_catch
    (trigger (SetIsLoading true);;
     trigger (SetError None);;
     resp ← await SelectOrdered;
     throwIfError resp;;
     trigger (SetTasks (default [] (data resp))))
    (λ err,
       let message := errorMessage err (lit "Failed to fetch tasks") in
       trigger (SetError (Some message));;
       trigger (ToastError message));;
  trigger (SetIsLoading false).

Section View.
Context `{CaseConversion}.

Definition filteredTasks (tasks : list Task) (searchQuery : jsstring) : list Task :=
  List.filter
    (λ task, includes (toLowerCase (title task)) (toLowerCase searchQuery))
    tasks.

Definition tasksByColumn (tasks : list Task) (searchQuery : jsstring)
  : gmap jsstring (list Task) :=
  foldl
    (λ acc columnId,
       <[columnId :=
           List.filter
             (λ task,
                bool_decide (toLowerCase (status task) = toLowerCase columnId))
             (filteredTasks tasks searchQuery)]> acc)
    ∅ defaultColumns.

(** The [tasks] prop of the column [columnId]:
    [tasksByColumn[columnId] || []]. *)
Definition columnTasks (tasks : list Task) (searchQuery columnId : jsstring)
  : list Task :=
  default [] (tasksByColumn tasks searchQuery !! columnId).

End View.

(** The handlers close over [tasks], the collection of the render that
    created them. *)

Definition handleDragEnd (tasks : list Task) (event : DragEndEvent) : Prog unit :=
  match over event with
  | None => Ret tt
  | Some overColumn =>
      let activeTask :=
        List.find (λ task, bool_decide (id task = active event)) tasks in
      match activeTask with
      | Some activeTask =>
          if bool_decide (status activeTask ≠ overColumn) then
            try_catch
              (resp ← await (UpdateEq (onlyStatus overColumn) (id activeTask));
               throwIfError resp;;
               trigger (SetTasks
                 (List.map
                    (λ task,
                       if bool_decide (id task = id activeTask)
                       then spread task (onlyStatus overColumn)
                       else task)
                    tasks));;
               trigger (ToastSuccess (lit "Task moved successfully")))
              (λ err,
                 let message := errorMessage err (lit "Failed to update task") in
                 trigger (ToastError message))
          else Ret tt
      | None => Ret tt
      end;;
      trigger (SetActiveId None)
  end.

Definition handleAddTask (tasks : list Task)
    (columnId title description : jsstring) : Prog unit :=
  let newTask :=
    {| new_title := title; new_description := description;
       new_status := columnId; new_priority := medium |} in
  try_catch
    (resp ← await (InsertSingle newTask);
     throwIfError resp;;
     match data resp with
     | Some data =>
         trigger (SetTasks (tasks ++ [data]));;
         trigger (ToastSuccess (lit "Task created successfully"))
     | None => Ret tt
     end)
    (λ err,
       let message := errorMessage err (lit "Failed to create task") in
       trigger (ToastError message)).

Definition handleDeleteTask (tasks : list Task) (taskId : jsstring) : Prog unit :=
  try_catch
    (resp ← await (DeleteEq taskId);
     throwIfError resp;;
     trigger (SetTasks
       (List.filter (λ task, bool_decide (id task ≠ taskId)) tasks));;
     trigger (ToastSuccess (lit "Task deleted successfully")))
    (λ err,
       let message := errorMessage err (lit "Failed to delete task") in
       trigger (ToastError message)).

Definition handleUpdateTask (tasks : list Task)
    (taskId : jsstring) (updates : PartialTask) : Prog unit :=
  try_catch
    (resp ← await (UpdateEq updates taskId);
     throwIfError resp;;
     trigger (SetTasks
       (List.map
          (λ task,
             if bool_decide (id task = taskId) then spread task updates else task)
          tasks));;
     trigger (ToastSuccess (lit "Task updated successfully")))
    (λ err,
       let message := errorMessage err (lit "Failed to update task") in
       trigger (ToastError message)).

(** [onDragStart={(event) => setActiveId(event.active.id)}] *)
Definition handleDragStart (activeId : jsstring) : Prog unit :=
  trigger (SetActiveId (Some activeId)).

(** The child of [DragOverlay]:
    [activeId ? <Card task={tasks.find((task) => task.id === activeId)!} /> : null].
    The outer option is the conditional; the inner one is what [find]
    returns under the non-null assertion. *)
Definition overlayTask (tasks : list Task) (activeId : option jsstring)
  : option (option Task) :=
  match activeId with
  | Some activeId =>
      if truthy activeId
      then Some (List.find (λ task, bool_decide (id task = activeId)) tasks)
      else None
  | None => None
  end.

(** [if (error) { return ... {error} ... Retry ... }]: the message of the
    error page when the render returns it instead of the board. *)
Definition errorPage (error : option jsstring) : option jsstring :=
  match error with
  | Some message => if truthy message then Some message else None
  | None => None
  end.

End KanbanBoard.

(** ** The column view ([Column.tsx]) *)

Module Column.

(** The [useState] cells of one column's new-task form. *)
Record Form := {
  isAddingTask : bool;
  newTaskTitle : jsstring;
  newTaskDescription : jsstring
}.

(** The form after the handler, and the call it makes to [onAddTask] (the
    callback is asynchronous and is not awaited). *)
Definition handleAddTask (onAddTask : jsstring → jsstring → Prog unit)
    (form : Form) : Form * Prog unit :=
  if truthy (trim (newTaskTitle form)) then
    ({| isAddingTask := false; newTaskTitle := []; newTaskDescription := [] |},
     onAddTask (trim (newTaskTitle form)) (trim (newTaskDescription form)))
  else (form, Ret tt).

(** [disabled={!newTaskTitle.trim()}] on the "Add Task" button. *)
Definition addDisabled (form : Form) : bool :=
  negb (truthy (trim (newTaskTitle form))).

(** The part of a keyboard event the handler reads. *)
Record KeyboardEvent := { key : jsstring; shiftKey : bool }.

(** [onKeyPress] of the title input; the first component tells whether
    [preventDefault] was called. *)
Definition handleKeyPress (onAddTask : jsstring → jsstring → Prog unit)
    (e : KeyboardEvent) (form : Form) : bool * (Form * Prog unit) :=
  if bool_decide (key e = lit "Enter") && negb (shiftKey e)
  then (true, handleAddTask onAddTask form)
  else (false, (form, Ret tt)).

End Column.

(** ** The card view ([Card.tsx]) *)

Module Card.

(** The [useState] cells of one card's inline editor. *)
Record Editor := {
  isEditing : bool;
  editedTitle : jsstring;
  editedDescription : jsstring
}.

(** The object literal [{ title: t, description: d }]. *)
Definition titleAndDescription (t d : jsstring) : PartialTask :=
  {| upd_id := None; upd_title := Some t; upd_description := Some d;
     upd_status := None; upd_priority := None; upd_assignee := None |}.

(** The editor once the handler is through, and the call it awaits. *)
Definition handleSave (onUpdate : jsstring → PartialTask → Prog unit)
    (task : Task) (ed : Editor) : Editor * Prog unit :=
  if bool_decide (trim (editedTitle ed) = []) then (ed, Ret tt)
  else
    ({| isEditing := false; editedTitle := editedTitle ed;
        editedDescription := editedDescription ed |},
     onUpdate (id task)
       (titleAndDescription (editedTitle ed) (editedDescription ed))).

(** [useState(task.title)], [useState(task.description)], [useState(false)]. *)
Definition initialEditor (task : Task) : Editor :=
  {| isEditing := false; editedTitle := title task;
     editedDescription := description task |}.

(** [useSortable({ id: task.id, disabled: overlay || isEditing })] *)
Definition sortableDisabled (overlay : bool) (ed : Editor) : bool :=
  overlay || isEditing ed.

End Card.

(** ** User gestures *)

(** The post-load mutations, as wired by the render of [KanbanBoard]. *)
Inductive Mutation :=
| AddTask (columnId title description : jsstring)
| DeleteTask (taskId : jsstring)
| UpdateTask (taskId : jsstring) (updates : PartialTask)
| DragEnd (event : KanbanBoard.DragEndEvent).

Definition mutate (tasks : list Task) (m : Mutation) : Prog unit :=
  match m with
  | AddTask columnId title description =>
      KanbanBoard.handleAddTask tasks columnId title description
  | DeleteTask taskId => KanbanBoard.handleDeleteTask tasks taskId
  | UpdateTask taskId updates => KanbanBoard.handleUpdateTask tasks taskId updates
  | DragEnd event => KanbanBoard.handleDragEnd tasks event
  end.

Inductive Operation :=
| Load
| Mutate (m : Mutation).

Definition operate (b : Board) (op : Operation) : Prog unit :=
  match op with
  | Load => KanbanBoard.fetchTasks
  | Mutate m => mutate (tasks b) m
  end.

(** The board after operation [op] has run to completion against [s]. *)
Definition after (s : Store) (b : Board) (op : Operation) : World :=
  snd (run s (operate b op) b).

(** Submitting the new-task form of column [columnId]; the column's
    [onAddTask] prop is
    [(title, description) => handleAddTask(columnId, title, description)]. *)
Definition submitForm (tasks : list Task) (columnId : jsstring)
    (form : Column.Form) : Column.Form * Prog unit :=
  Column.handleAddTask (KanbanBoard.handleAddTask tasks columnId) form.

Definition ids (l : list Task) : list jsstring := id <$> l.

(** A key press in the title input of column [columnId]. *)
Definition pressKey (tasks : list Task) (columnId : jsstring)
    (e : Column.KeyboardEvent) (form : Column.Form)
  : bool * (Column.Form * Prog unit) :=
  Column.handleKeyPress (KanbanBoard.handleAddTask tasks columnId) e form.

(** "Save" on the card of [task]; the card's [onUpdate] prop is the
    board's [handleUpdateTask], passed through the column unchanged. *)
Definition saveCard (tasks : list Task) (task : Task) (ed : Card.Editor)
  : Card.Editor * Prog unit :=
  Card.handleSave (KanbanBoard.handleUpdateTask tasks) task ed.

(** The board a handler leaves when run on board [b]. *)
Definition boardAfter (s : Store) (p : Prog unit) (b : Board) : Board :=
  board (snd (run s p b)).

Definition isRemote (ev : Event) : bool :=
  match ev with Remote _ _ => true | Toast _ _ => false end.

Definition isToast (ev : Event) : bool :=
  match ev with Remote _ _ => false | Toast _ _ => true end.

Definition isSuccessToast (ev : Event) : bool :=
  match ev with Toast true _ => true | _ => false end.

(** The move [handleDragEnd] applies to the collection on success. *)
Definition moved (taskId overColumn : jsstring) (l : list Task) : list Task :=
  List.map
    (λ task, if bool_decide (id task = taskId)
             then spread task (onlyStatus overColumn) else task) l.

(** ** Vocabulary of the specification *)

(** "Empty or whitespace-only". *)
Definition whitespaceOnly (s : jsstring) : Prop :=
  Forall (λ c, isWhiteSpace c = true) s.

(** [t] is [s] without its leading and trailing whitespace. *)
Definition trimmedFrom (s t : jsstring) : Prop :=
  (∃ l r, s = l ++ t ++ r ∧ whitespaceOnly l ∧ whitespaceOnly r) ∧
  (∀ c, head t = Some c → isWhiteSpace c = false) ∧
  (∀ c, last t = Some c → isWhiteSpace c = false).

(** "[a] case-insensitively equals [b]". *)
Definition equalsIgnoreCase `{CaseConversion} (a b : jsstring) : Prop :=
  toLowerCase a = toLowerCase b.

(** "[s] case-insensitively contains [q] as a substring". *)
Definition containsIgnoreCase `{CaseConversion} (s q : jsstring) : Prop :=
  ∃ pre post, toLowerCase s = pre ++ toLowerCase q ++ post.

(** The store's canonical record for a submitted row: the submitted
    fields, under an identifier of the store's choosing. *)
Definition canonicalFor (row : NewTask) (record : Task) : Prop :=
  title record = new_title row ∧
  description record = new_description row ∧
  status record = new_status row ∧
  priority record = new_priority row.

(** "All ids in the collection are pairwise distinct". *)
Definition idsDistinct (l : list Task) : Prop := NoDup (ids l).

(** What identifier uniqueness needs from outside the handlers: a listing
    without repeated ids, a fresh id for an inserted row, and an edit that
    does not carry the [id] key. *)
Definition respectsIds (s : Store) (b : Board) (op : Operation) : Prop :=
  match op with
  | Load =>
      ∀ rows, onSelect s = Fulfilled {| data := Some rows; Supabase.error := None |} →
              idsDistinct rows
  | Mutate (AddTask columnId title description) =>
      ∀ record,
        onInsert s {| new_title := title; new_description := description;
                      new_status := columnId; new_priority := medium |}
          = Fulfilled {| data := Some record; Supabase.error := None |} →
        id record ∉ ids (tasks b)
  | Mutate (UpdateTask _ updates) => upd_id updates = None
  | Mutate (DeleteTask _) | Mutate (DragEnd _) => True
  end.

(** "The remote store call of the mutation fails": the store's answer to
    the query the mutation sends is a failure.  A drag completion sends a
    query when it is a cross-column drop: a target, a task under the
    dragged id, and a status other than the target. *)
Definition remoteCallFails (s : Store) (b : Board) (m : Mutation) : Prop :=
  match m with
  | AddTask columnId title description =>
      failed (onInsert s {| new_title := title; new_description := description;
                            new_status := columnId; new_priority := medium |})
        = true
  | DeleteTask taskId => failed (onDelete s taskId) = true
  | UpdateTask taskId updates => failed (onUpdate s updates taskId) = true
  | DragEnd event =>
      ∃ T overColumn,
        List.find (λ task, bool_decide (id task = KanbanBoard.active event)) (tasks b)
          = Some T ∧
        KanbanBoard.over event = Some overColumn ∧
        status T ≠ overColumn ∧
        failed (onUpdate s (onlyStatus overColumn) (id T)) = true
  end.

(** The operations as the rendered board lets a user issue them. *)
Inductive Gesture :=
| Reload                                              (* mount, "Retry" *)
| SubmitNew (columnId : jsstring) (form : Column.Form) (* "Add Task", Enter *)
| SaveCard (task : Task) (ed : Card.Editor)            (* "Save" on a card *)
| DeleteCard (task : Task)                             (* the card's bin *)
| Drop (event : KanbanBoard.DragEndEvent).             (* end of a drag *)

Definition gesture (b : Board) (g : Gesture) : Prog unit :=
  match g with
  | Reload => KanbanBoard.fetchTasks
  | SubmitNew columnId form => snd (submitForm (tasks b) columnId form)
  | SaveCard task ed => snd (saveCard (tasks b) task ed)
  | DeleteCard task => KanbanBoard.handleDeleteTask (tasks b) (id task)
  | Drop event => KanbanBoard.handleDragEnd (tasks b) event
  end.

(** The identifiers are the store's: it assigns them and keeps them
    unique.  A listing repeats no id, and the record returned for an
    insert carries an id the collection does not hold yet. *)
Definition storeAssignsUniqueIds (s : Store) (b : Board) : Prop :=
  (∀ rows, onSelect s = Fulfilled {| data := Some rows; Supabase.error := None |} →
           idsDistinct rows) ∧
  (∀ row record,
     onInsert s row = Fulfilled {| data := Some record; Supabase.error := None |} →
     id record ∉ ids (tasks b)).

(** ** Sample data *)

Module Sample.

Definition mkTask (i t s : string) : Task :=
  {| id := lit i; title := lit t; description := []; status := lit s;
     priority := medium; assignee := None |}.

Definition t1 : Task := mkTask "1" "Buy milk" "Todo".
Definition t2 : Task := mkTask "2" "Write report" "todo".
Definition t3 : Task := mkTask "3" "Ship it" "Done".
Definition t4 : Task := mkTask "4" "Old idea" "Archived".

Definition boardOf (l : list Task) (dragged : option jsstring) : Board :=
  {| tasks := l; activeId := dragged; searchQuery := [];
     isLoading := false; error := None |}.

Definition ok {D} (d : option D) : Settled (Response D) :=
  Fulfilled {| data := d; Supabase.error := None |}.

Definition networkDown : Thrown :=
  {| instanceofError := true; message := lit "Failed to fetch" |}.

(** A store that accepts everything and assigns the id "9". *)
Definition accepting : Store :=
  {| onSelect := ok (Some [t1; t2; t3]);
     onInsert := λ row,
       ok (Some {| id := lit "9"; title := new_title row;
                   description := new_description row;
                   status := new_status row; priority := new_priority row;
                   assignee := None |});
     onUpdate := λ _ _, ok None;
     onDelete := λ _, ok None |}.

(** A store whose every call fails. *)
Definition failing : Store :=
  {| onSelect := Rejected networkDown;
     onInsert := λ _, Rejected networkDown;
     onUpdate := λ _ _,
       Fulfilled {| data := None;
                    Supabase.error := Some {| instanceofError := false;
                                              message := lit "denied" |} |};
     onDelete := λ _, Rejected networkDown |}.

(** The update [{ description: "two litres" }]. *)
Definition describe : PartialTask :=
  {| upd_id := None; upd_title := None;
     upd_description := Some (lit "two litres");
     upd_status := None; upd_priority := None; upd_assignee := None |}.

End Sample.

(** * Properties *)

(** ** Strings *)

Lemma startsWith_spec (s p : jsstring) :
  startsWith s p = true ↔ ∃ post, s = p ++ post.
Proof.
  revert s. induction p as [|a p IH]; intros s; simpl.
  - split; [intros _; by exists s | done].
  - destruct s as [|b s].
    + split; [done | intros [post Hpost]; discriminate].
    + rewrite andb_true_iff, N.eqb_eq, IH. split.
      * intros [-> [post ->]]. eauto.
      * intros [post [= -> ->]]. eauto.
Qed.

Lemma includes_spec (s p : jsstring) :
  includes s p = true ↔ ∃ pre post, s = pre ++ p ++ post.
Proof.
  induction s as [|b s IH].
  - cbn [includes]. rewrite orb_false_r, startsWith_spec. split.
    + intros [post ->]. by exists [], post.
    + intros (pre & post & Heq). symmetry in Heq.
      apply app_eq_nil in Heq as [-> Heq]. eauto.
  - cbn [includes]. rewrite orb_true_iff, startsWith_spec, IH. split.
    + intros [[post ->] | (pre & post & ->)].
      * by exists [], post.
      * by exists (b :: pre), post.
    + intros ([|c pre] & post & Heq).
      * left. eauto.
      * right. injection Heq as -> ->. eauto.
Qed.

Lemma trimStart_spec (s : jsstring) :
  ∃ l, s = l ++ trimStart s ∧ whitespaceOnly l ∧
       ∀ c, head (trimStart s) = Some c → isWhiteSpace c = false.
Proof.
  induction s as [|c s (l & Hs & Hl & Hhd)]; simpl.
  - exists []. split_and!; [done | constructor | done].
  - destruct (isWhiteSpace c) eqn:Hc.
    + exists (c :: l). split_and!; [simpl; congruence | by constructor | done].
    + exists []. split_and!; [done | constructor |].
      intros c' [= <-]. done.
Qed.

Lemma trimStart_nil_iff (s : jsstring) : trimStart s = [] ↔ whitespaceOnly s.
Proof.
  unfold whitespaceOnly. induction s as [|c s IH]; simpl.
  - split; [constructor | done].
  - destruct (isWhiteSpace c) eqn:Hc.
    + rewrite IH. split; [by constructor | by inversion 1].
    + split; [done | inversion 1; congruence].
Qed.

Lemma trim_spec (s : jsstring) : trimmedFrom s (trim s).
Proof.
  unfold trim, trimEnd.
  destruct (trimStart_spec s) as (l & Hs & Hl & Hhd).
  destruct (trimStart_spec (reverse (trimStart s))) as (r & Hu & Hr & Hlast).
  set (u := trimStart s) in *. set (v := trimStart (reverse u)) in *.
  assert (Hu' : u = reverse v ++ reverse r).
  { rewrite <- reverse_app, <- Hu. by rewrite reverse_involutive. }
  split_and!.
  - exists l, (reverse r). split_and!.
    + by rewrite <- Hu'.
    + done.
    + by apply Forall_reverse.
  - intros c Hc. apply Hhd. rewrite Hu'. apply head_app_Some. by left.
  - intros c Hc. apply Hlast. by rewrite <- last_reverse.
Qed.

Lemma trim_nil_iff (s : jsstring) : trim s = [] ↔ whitespaceOnly s.
Proof.
  split.
  - intros Ht. destruct (trim_spec s) as [(l & r & Hs & Hl & Hr) _].
    rewrite Hs, Ht. unfold whitespaceOnly in *. by rewrite !Forall_app.
  - intros Hs. unfold trim. apply trimStart_nil_iff in Hs. by rewrite Hs.
Qed.

Lemma truthy_trim (s : jsstring) :
  truthy (trim s) = negb (bool_decide (whitespaceOnly s)).
Proof.
  case_bool_decide as Hs; simpl.
  - apply trim_nil_iff in Hs. by rewrite Hs.
  - destruct (trim s) eqn:Ht; [|done].
    by apply trim_nil_iff in Ht.
Qed.

(** ** The view: search filter and column partition *)

Section ViewProperties.
Context `{CaseConversion}.

Lemma tasksByColumn_lookup (tasks : list Task) (Q C : jsstring) :
  KanbanBoard.tasksByColumn tasks Q !! C
  = if decide (C ∈ KanbanBoard.defaultColumns)
    then Some (List.filter
                 (λ task, bool_decide (toLowerCase (status task) = toLowerCase C))
                 (KanbanBoard.filteredTasks tasks Q))
    else None.
Proof.
  unfold KanbanBoard.tasksByColumn.
  rewrite <- (lookup_empty (M := gmap jsstring) (A := list Task) C).
  generalize (∅ : gmap jsstring (list Task)) as acc.
  induction KanbanBoard.defaultColumns as [|columnId columns IH] using rev_ind;
    intros acc.
  - by rewrite decide_False by apply not_elem_of_nil.
  - rewrite foldl_snoc. destruct (decide (columnId = C)) as [-> | Hne].
    + rewrite lookup_insert_eq, decide_True; [done|].
      apply elem_of_app. right. by apply list_elem_of_singleton.
    + rewrite lookup_insert_ne, IH by done.
      destruct (decide (C ∈ columns)) as [Hin | Hnin].
      * rewrite decide_True; [done | apply elem_of_app; by left].
      * rewrite decide_False; [done|].
        intros [? | ?%list_elem_of_singleton]%elem_of_app; done.
Qed.

Lemma elem_of_columnTasks (tasks : list Task) (Q C : jsstring) (T : Task) :
  C ∈ KanbanBoard.defaultColumns →
  T ∈ KanbanBoard.columnTasks tasks Q C ↔
  T ∈ tasks ∧ equalsIgnoreCase (status T) C ∧ containsIgnoreCase (title T) Q.
Proof.
  intros HC. unfold KanbanBoard.columnTasks.
  rewrite tasksByColumn_lookup, decide_True by done. simpl.
  unfold KanbanBoard.filteredTasks, equalsIgnoreCase, containsIgnoreCase.
  rewrite !list_elem_of_In, !filter_In, bool_decide_eq_true, includes_spec.
  tauto.
Qed.

Lemma defaultColumns_lower :
  toLowerCase <$> KanbanBoard.defaultColumns
  = [lit "todo"; lit "in progress"; lit "done"].
Proof.
  unfold KanbanBoard.defaultColumns. simpl.
  rewrite !toLowerCase_ascii; [done | | |];
    vm_compute; repeat constructor.
Qed.

End ViewProperties.

Lemma filter_sublist {A} (f : A → bool) (l : list A) :
  List.filter f l `sublist_of` l.
Proof.
  induction l as [|x l IH]; simpl; [done|].
  destruct (f x); by constructor.
Qed.

Lemma columnTasks_sublist `{CaseConversion} (tasks : list Task) (Q C : jsstring) :
  KanbanBoard.columnTasks tasks Q C `sublist_of` tasks.
Proof.
  unfold KanbanBoard.columnTasks. rewrite tasksByColumn_lookup.
  case_decide; simpl; [|apply sublist_nil_l].
  etrans; apply filter_sublist.
Qed.

(** C4. For every task [T] of the local collection, every configured column
    [C] and every search query [Q]: [T] is in the task list computed for
    [C] exactly when [T.status] case-insensitively equals [C] and [T.title]
    case-insensitively contains [Q].  The list is computed from the
    collection, which it leaves as it is: it is a subsequence of it. *)
Theorem column_membership `{CaseConversion}
    (tasks : list Task) (Q C : jsstring) (T : Task) :
  T ∈ tasks →
  C ∈ KanbanBoard.defaultColumns →
  (T ∈ KanbanBoard.columnTasks tasks Q C ↔
     equalsIgnoreCase (status T) C ∧ containsIgnoreCase (title T) Q) ∧
  KanbanBoard.columnTasks tasks Q C `sublist_of` tasks.
Proof.
  intros HT HC. split; [|apply columnTasks_sublist].
  rewrite elem_of_columnTasks by done. tauto.
Qed.

Lemma column_membership_witness :
  let tasks := [Sample.t1; Sample.t2; Sample.t3] in
  Sample.t1 ∈ tasks ∧
  lit "Todo" ∈ KanbanBoard.defaultColumns ∧
  (Sample.t1 ∈ KanbanBoard.columnTasks tasks (lit "MILK") (lit "Todo") ↔
     equalsIgnoreCase (status Sample.t1) (lit "Todo") ∧
     containsIgnoreCase (title Sample.t1) (lit "MILK")) ∧
  KanbanBoard.columnTasks tasks (lit "MILK") (lit "Todo") `sublist_of` tasks.
Proof.
  intros tasks.
  assert (H1 : Sample.t1 ∈ tasks) by apply list_elem_of_here.
  assert (H2 : lit "Todo" ∈ KanbanBoard.defaultColumns) by apply list_elem_of_here.
  split; [exact H1|]. split; [exact H2|].
  exact (column_membership tasks (lit "MILK") (lit "Todo") Sample.t1 H1 H2).
Defined.

(** The scenario of the specification: statuses "Todo", "todo", "Done". *)
Example scenario_three_statuses :
  let tasks := [Sample.t1; Sample.t2; Sample.t3] in
  KanbanBoard.columnTasks tasks [] (lit "Todo") = [Sample.t1; Sample.t2] ∧
  KanbanBoard.columnTasks tasks [] (lit "In Progress") = [] ∧
  KanbanBoard.columnTasks tasks [] (lit "Done") = [Sample.t3].
Proof. by vm_compute. Qed.

Lemma defaultColumns_distinct_ignoring_case `{CaseConversion} :
  NoDup (toLowerCase <$> KanbanBoard.defaultColumns).
Proof.
  rewrite defaultColumns_lower. apply (bool_decide_unpack _). by vm_compute.
Qed.

(** C10. The column partition is disjoint: the three column identifiers
    stay pairwise distinct when case is ignored, so a task appears in the
    computed task list of at most one column. *)
Theorem columns_disjoint `{CaseConversion}
    (tasks : list Task) (Q C1 C2 : jsstring) (T : Task) :
  C1 ∈ KanbanBoard.defaultColumns →
  C2 ∈ KanbanBoard.defaultColumns →
  T ∈ KanbanBoard.columnTasks tasks Q C1 →
  T ∈ KanbanBoard.columnTasks tasks Q C2 →
  C1 = C2.
Proof.
  intros HC1 HC2 HT1 HT2.
  apply elem_of_columnTasks in HT1 as (_ & E1 & _); [|done].
  apply elem_of_columnTasks in HT2 as (_ & E2 & _); [|done].
  unfold equalsIgnoreCase in *.
  pose proof defaultColumns_distinct_ignoring_case as Hnd.
  apply list_elem_of_lookup in HC1 as [i Hi], HC2 as [j Hj].
  assert (i = j) as ->; [|congruence].
  eapply NoDup_lookup; [exact Hnd | |].
  - rewrite list_lookup_fmap, Hi. reflexivity.
  - rewrite list_lookup_fmap, Hj. simpl. congruence.
Qed.

Lemma columns_disjoint_witness :
  let tasks := [Sample.t1; Sample.t2; Sample.t3] in
  lit "Todo" ∈ KanbanBoard.defaultColumns ∧
  Sample.t2 ∈ KanbanBoard.columnTasks tasks [] (lit "Todo") ∧
  lit "Todo" = lit "Todo".
Proof.
  intros tasks.
  assert (H1 : lit "Todo" ∈ KanbanBoard.defaultColumns) by apply list_elem_of_here.
  assert (H2 : Sample.t2 ∈ KanbanBoard.columnTasks tasks [] (lit "Todo")).
  { vm_compute. apply list_elem_of_further, list_elem_of_here. }
  split; [exact H1|]. split; [exact H2|].
  exact (columns_disjoint tasks [] (lit "Todo") (lit "Todo") Sample.t2 H1 H1 H2 H2).
Defined.

(** A task whose status matches no configured column is in no column. *)
Lemma unmatched_status_in_no_column `{CaseConversion} (Q C : jsstring) :
  C ∈ KanbanBoard.defaultColumns →
  Sample.t4 ∉ KanbanBoard.columnTasks [Sample.t1; Sample.t4] Q C.
Proof.
  intros HC [_ [E _]]%elem_of_columnTasks; [|done].
  unfold equalsIgnoreCase in E.
  assert (HE : toLowerCase C ∈ toLowerCase <$> KanbanBoard.defaultColumns)
    by by apply list_elem_of_fmap_2.
  rewrite <- E, defaultColumns_lower, toLowerCase_ascii in HE.
  - vm_compute in HE.
    repeat (apply elem_of_cons in HE as [HE | HE]; [discriminate HE|]).
    by apply elem_of_nil in HE.
  - vm_compute. repeat constructor.
Qed.

(** ** Running the handlers *)

Lemma run_handleDeleteTask (s : Store) (b : Board) (l : list Task) (taskId : jsstring) :
  run s (KanbanBoard.handleDeleteTask l taskId) b =
  let r := onDelete s taskId in
  (Returned tt,
   match failure r with
   | Some err =>
       {| board := b;
          trace := [Remote (DeleteEq taskId) r;
                    Toast false (errorMessage err (lit "Failed to delete task"))] |}
   | None =>
       {| board := withTasks
                     (List.filter (λ task, bool_decide (id task ≠ taskId)) l) b;
          trace := [Remote (DeleteEq taskId) r;
                    Toast true (lit "Task deleted successfully")] |}
   end).
Proof.
  unfold run, KanbanBoard.handleDeleteTask. cbn.
  destruct (onDelete s taskId) as [[d [err|]]|reason]; reflexivity.
Qed.

Lemma run_handleUpdateTask (s : Store) (b : Board) (l : list Task)
    (taskId : jsstring) (updates : PartialTask) :
  run s (KanbanBoard.handleUpdateTask l taskId updates) b =
  let r := onUpdate s updates taskId in
  (Returned tt,
   match failure r with
   | Some err =>
       {| board := b;
          trace := [Remote (UpdateEq updates taskId) r;
                    Toast false (errorMessage err (lit "Failed to update task"))] |}
   | None =>
       {| board := withTasks
                     (List.map
                        (λ task, if bool_decide (id task = taskId)
                                 then spread task updates else task) l) b;
          trace := [Remote (UpdateEq updates taskId) r;
                    Toast true (lit "Task updated successfully")] |}
   end).
Proof.
  unfold run, KanbanBoard.handleUpdateTask. cbn.
  destruct (onUpdate s updates taskId) as [[d [err|]]|reason]; reflexivity.
Qed.

Lemma run_handleAddTask (s : Store) (b : Board) (l : list Task)
    (columnId title description : jsstring) :
  run s (KanbanBoard.handleAddTask l columnId title description) b =
  let row := {| new_title := title; new_description := description;
                new_status := columnId; new_priority := medium |} in
  let r := onInsert s row in
  (Returned tt,
   match r with
   | Rejected err | Fulfilled {| Supabase.error := Some err |} =>
       {| board := b;
          trace := [Remote (InsertSingle row) r;
                    Toast false (errorMessage err (lit "Failed to create task"))] |}
   | Fulfilled {| data := Some record; Supabase.error := None |} =>
       {| board := withTasks (l ++ [record]) b;
          trace := [Remote (InsertSingle row) r;
                    Toast true (lit "Task created successfully")] |}
   | Fulfilled {| data := None; Supabase.error := None |} =>
       {| board := b; trace := [Remote (InsertSingle row) r] |}
   end).
Proof.
  unfold run, KanbanBoard.handleAddTask. cbn.
  destruct (onInsert s _) as [[[record|] [err|]]|reason]; reflexivity.
Qed.

Lemma run_handleDragEnd (s : Store) (b : Board) (l : list Task)
    (event : KanbanBoard.DragEndEvent) :
  run s (KanbanBoard.handleDragEnd l event) b =
  (Returned tt,
   match KanbanBoard.over event with
   | None => {| board := b; trace := [] |}
   | Some overColumn =>
       match List.find (λ task, bool_decide (id task = KanbanBoard.active event)) l with
       | Some activeTask =>
           if bool_decide (status activeTask ≠ overColumn) then
             let q := UpdateEq (onlyStatus overColumn) (id activeTask) in
             let r := onUpdate s (onlyStatus overColumn) (id activeTask) in
             match failure r with
             | Some err =>
                 {| board := withActiveId None b;
                    trace := [Remote q r;
                              Toast false
                                (errorMessage err (lit "Failed to update task"))] |}
             | None =>
                 {| board :=
                      withActiveId None
                        (withTasks
                           (List.map
                              (λ task, if bool_decide (id task = id activeTask)
                                       then spread task (onlyStatus overColumn)
                                       else task) l) b);
                    trace := [Remote q r;
                              Toast true (lit "Task moved successfully")] |}
             end
           else {| board := withActiveId None b; trace := [] |}
       | None => {| board := withActiveId None b; trace := [] |}
       end
   end).
Proof.
  unfold run, KanbanBoard.handleDragEnd.
  destruct (KanbanBoard.over event) as [overColumn|]; [|reflexivity].
  destruct (List.find _ l) as [activeTask|]; [|reflexivity].
  case_bool_decide; [|reflexivity]. cbn.
  destruct (onUpdate s _ _) as [[d [err|]]|reason]; reflexivity.
Qed.

Lemma run_fetchTasks (s : Store) (b : Board) :
  run s KanbanBoard.fetchTasks b =
  let r := onSelect s in
  (Returned tt,
   match r with
   | Rejected err | Fulfilled {| Supabase.error := Some err |} =>
       let message := errorMessage err (lit "Failed to fetch tasks") in
       {| board := withIsLoading false (withError (Some message) (withError None b));
          trace := [Remote SelectOrdered r; Toast false message] |}
   | Fulfilled {| data := rows; Supabase.error := None |} =>
       {| board := withIsLoading false (withTasks (default [] rows) (withError None b));
          trace := [Remote SelectOrdered r] |}
   end).
Proof.
  unfold run, KanbanBoard.fetchTasks. cbn.
  destruct (onSelect s) as [[rows [err|]]|reason]; reflexivity.
Qed.

Lemma after_mutate (s : Store) (b : Board) (m : Mutation) :
  after s b (Mutate m) = snd (run s (mutate (tasks b) m) b).
Proof. reflexivity. Qed.

(** Every operation runs to completion and throws nothing. *)
Lemma operate_returns (s : Store) (b : Board) (op : Operation) :
  fst (run s (operate b op) b) = Returned tt.
Proof.
  destruct op as [|[]]; simpl.
  - by rewrite run_fetchTasks.
  - by rewrite run_handleAddTask.
  - by rewrite run_handleDeleteTask.
  - by rewrite run_handleUpdateTask.
  - by rewrite run_handleDragEnd.
Qed.

(** ** Drag completion *)

(** With pairwise distinct ids, the lookup by id finds every task of the
    collection. *)
Lemma find_by_id_unique (l : list Task) (T : Task) :
  idsDistinct l → T ∈ l →
  List.find (λ task, bool_decide (id task = id T)) l = Some T.
Proof.
  unfold idsDistinct, ids. induction l as [|t l IH]; intros Hnd HT.
  - by apply elem_of_nil in HT.
  - rewrite fmap_cons in Hnd. apply NoDup_cons in Hnd as [Hnotin Hnd]. simpl.
    apply elem_of_cons in HT as [-> | HT].
    + by rewrite bool_decide_eq_true_2.
    + rewrite bool_decide_eq_false_2; [by apply IH|].
      intros Heq. apply Hnotin. rewrite Heq. by apply list_elem_of_fmap_2.
Qed.

Lemma find_by_id_elem_of (l : list Task) (taskId : jsstring) (T : Task) :
  List.find (λ task, bool_decide (id task = taskId)) l = Some T →
  T ∈ l ∧ id T = taskId.
Proof.
  intros Hfind. apply find_some in Hfind as [Hin Hid].
  split; [by apply list_elem_of_In | by apply bool_decide_eq_true in Hid].
Qed.

(** The task the handler finds under the dragged id, dropped on a target
    that is its status letter for letter: nothing is called, nothing
    changes. *)
Lemma drop_on_found_status_is_noop (s : Store) (b : Board)
    (event : KanbanBoard.DragEndEvent) (T : Task) :
  List.find (λ task, bool_decide (id task = KanbanBoard.active event)) (tasks b)
    = Some T →
  KanbanBoard.over event = Some (status T) →
  trace (after s b (Mutate (DragEnd event))) = [] ∧
  tasks (board (after s b (Mutate (DragEnd event)))) = tasks b.
Proof.
  intros Hfind Hover. rewrite after_mutate. simpl.
  rewrite run_handleDragEnd, Hover, Hfind. simpl.
  by rewrite bool_decide_eq_false_2 by (intros Hne; by apply Hne).
Qed.

(** C1, amended.  For every collection with pairwise distinct ids and every
    task [T] in it: if a drag of [T] ends with a drop on the target whose
    identifier is exactly [T]'s current status, no remote call is issued
    and the local collection is left as it was. *)
Theorem drop_on_same_status_is_noop (s : Store) (b : Board)
    (event : KanbanBoard.DragEndEvent) (T : Task) :
  idsDistinct (tasks b) →
  T ∈ tasks b →
  KanbanBoard.active event = id T →
  KanbanBoard.over event = Some (status T) →
  trace (after s b (Mutate (DragEnd event))) = [] ∧
  tasks (board (after s b (Mutate (DragEnd event)))) = tasks b.
Proof.
  intros Hnd HT Hactive Hover. apply (drop_on_found_status_is_noop s b event T).
  - rewrite Hactive. by apply find_by_id_unique.
  - done.
Qed.

Lemma drop_on_same_status_is_noop_witness :
  let b := Sample.boardOf [Sample.t1; Sample.t2; Sample.t3] (Some (lit "3")) in
  let event := {| KanbanBoard.active := lit "3";
                  KanbanBoard.over := Some (lit "Done") |} in
  idsDistinct (tasks b) ∧
  Sample.t3 ∈ tasks b ∧
  KanbanBoard.active event = id Sample.t3 ∧
  KanbanBoard.over event = Some (status Sample.t3) ∧
  trace (after Sample.accepting b (Mutate (DragEnd event))) = [] ∧
  tasks (board (after Sample.accepting b (Mutate (DragEnd event)))) = tasks b.
Proof.
  intros b event.
  assert (H1 : idsDistinct (tasks b)).
  { apply (bool_decide_unpack _). reflexivity. }
  assert (H2 : Sample.t3 ∈ tasks b).
  { do 2 apply list_elem_of_further. apply list_elem_of_here. }
  assert (H3 : KanbanBoard.active event = id Sample.t3) by reflexivity.
  assert (H4 : KanbanBoard.over event = Some (status Sample.t3)) by reflexivity.
  split_and!; [exact H1 | exact H2 | exact H3 | exact H4 | |];
    apply (drop_on_same_status_is_noop Sample.accepting b event Sample.t3 H1 H2 H3 H4).
Defined.

(** C1 as worded fails on the scenario of the specification.  The task
    "2" has status "todo" and is listed in the column "Todo", its own
    current column; dropped on "Todo", it is sent to the store and its
    status is rewritten, because the guard compares the strings exactly. *)
Lemma drop_on_listing_column_calls_store :
  let b := Sample.boardOf [Sample.t1; Sample.t2; Sample.t3] (Some (lit "2")) in
  let event := {| KanbanBoard.active := lit "2";
                  KanbanBoard.over := Some (lit "Todo") |} in
  let w := after Sample.accepting b (Mutate (DragEnd event)) in
  idsDistinct (tasks b) ∧
  Sample.t2 ∈ tasks b ∧
  KanbanBoard.active event = id Sample.t2 ∧
  Sample.t2 ∈ KanbanBoard.columnTasks (tasks b) (searchQuery b) (lit "Todo") ∧
  (∀ C, C ∈ KanbanBoard.defaultColumns →
        Sample.t2 ∈ KanbanBoard.columnTasks (tasks b) (searchQuery b) C →
        C = lit "Todo") ∧
  trace w
  = [Remote (UpdateEq (onlyStatus (lit "Todo")) (lit "2"))
       (onUpdate Sample.accepting (onlyStatus (lit "Todo")) (lit "2"));
     Toast true (lit "Task moved successfully")] ∧
  tasks (board w) ≠ tasks b.
Proof.
  intros b event w. split_and!.
  - apply (bool_decide_unpack _). reflexivity.
  - apply list_elem_of_further, list_elem_of_here.
  - reflexivity.
  - vm_compute. apply list_elem_of_further, list_elem_of_here.
  - intros C HC Hin.
    apply elem_of_cons in HC as [-> | HC]; [done|].
    repeat (apply elem_of_cons in HC as [-> | HC];
            [vm_compute in Hin;
             repeat (apply elem_of_cons in Hin as [Hin | Hin]; [discriminate Hin|]);
             by apply elem_of_nil in Hin|]).
    by apply elem_of_nil in HC.
  - reflexivity.
  - discriminate.
Qed.

(** Every task of a collection with distinct ids is covered. *)
Corollary drop_on_own_column_distinct_ids (s : Store) (b : Board) (T : Task) :
  idsDistinct (tasks b) → T ∈ tasks b →
  let event := {| KanbanBoard.active := id T;
                  KanbanBoard.over := Some (status T) |} in
  after s b (Mutate (DragEnd event))
  = {| board := withActiveId None b; trace := [] |}.
Proof.
  intros Hnd HT event. rewrite after_mutate. simpl.
  rewrite run_handleDragEnd. simpl.
  rewrite find_by_id_unique by done.
  by rewrite bool_decide_eq_false_2 by (intros Hne; by apply Hne).
Qed.

(** Once a drop target exists, the dragged identifier is cleared, whatever
    the store answers. *)
Lemma dragEnd_with_target_clears_activeId (s : Store) (b : Board)
    (event : KanbanBoard.DragEndEvent) :
  is_Some (KanbanBoard.over event) →
  activeId (board (after s b (Mutate (DragEnd event)))) = None.
Proof.
  intros [overColumn Hover]. rewrite after_mutate. simpl.
  rewrite run_handleDragEnd, Hover. simpl.
  destruct (List.find _ _) as [activeTask|]; [|done].
  case_bool_decide; [|done].
  by destruct (failure _).
Qed.

(** Without a drop target the handler returns at once: nothing is
    called, and no cell of the state is written. *)
Lemma dragEnd_without_target (s : Store) (b : Board)
    (event : KanbanBoard.DragEndEvent) :
  KanbanBoard.over event = None →
  after s b (Mutate (DragEnd event)) = {| board := b; trace := [] |}.
Proof.
  intros Hover. rewrite after_mutate. simpl.
  by rewrite run_handleDragEnd, Hover.
Qed.

(** C2 asks that the dragged identifier be cleared at the end of every drag
    completion, also when there is no drop target.  When the card "1" is
    picked up and released over no target, [handleDragEnd] leaves
    [activeId] at "1". *)
Theorem dragEnd_without_target_keeps_activeId (s : Store) :
  let b0 := Sample.boardOf [Sample.t1] None in
  let b1 := board (snd (run s (KanbanBoard.handleDragStart (lit "1")) b0)) in
  let event := {| KanbanBoard.active := lit "1"; KanbanBoard.over := None |} in
  activeId b1 = Some (lit "1") ∧
  activeId (board (after s b1 (Mutate (DragEnd event)))) = Some (lit "1").
Proof. intros b0 b1 event. by rewrite dragEnd_without_target. Qed.

(** ** Failed mutations *)

(** C3. For every post-load mutation (add, update, delete, drag-move) and
    every prior state: if the store fails the remote call of the mutation
    (the promise rejects, or resolves with an error), the local collection
    after the handler is the collection before it, the failed call is the
    one that was made, a failure notification is shown and no success
    notification is. *)
Theorem failed_mutation_leaves_collection (s : Store) (b : Board) (m : Mutation) :
  remoteCallFails s b m →
  tasks (board (after s b (Mutate m))) = tasks b ∧
  Exists (λ ev, isFailedCall ev = true) (trace (after s b (Mutate m))) ∧
  Exists (λ ev, isFailureToast ev = true) (trace (after s b (Mutate m))) ∧
  Forall (λ ev, isSuccessToast ev = false) (trace (after s b (Mutate m))).
Proof.
  rewrite after_mutate. destruct m as [columnId title description | taskId
    | taskId updates | event]; simpl.
  - rewrite run_handleAddTask. simpl. unfold failed, failure.
    destruct (onInsert s _) as [[[record|] [err|]]|reason]; simpl;
      try discriminate; intros _;
      (split_and!; [done | by left | by right; left | by repeat constructor]).
  - rewrite run_handleDeleteTask. simpl. unfold isFailedCall, failed.
    destruct (failure (onDelete s taskId)) as [err|] eqn:Hr; simpl;
      try discriminate; intros _.
    split_and!; [done | left; by rewrite Hr | by right; left
                | repeat constructor].
  - rewrite run_handleUpdateTask. simpl. unfold isFailedCall, failed.
    destruct (failure (onUpdate s updates taskId)) as [err|] eqn:Hr; simpl;
      try discriminate; intros _.
    split_and!; [done | left; by rewrite Hr | by right; left
                | repeat constructor].
  - intros (T & overColumn & Hfind & Hover & Hne & Hfail).
    rewrite run_handleDragEnd, Hover, Hfind. simpl.
    rewrite bool_decide_eq_true_2 by done.
    unfold isFailedCall, failed in *.
    destruct (failure (onUpdate s _ _)) as [err|] eqn:Hr; simpl;
      try discriminate.
    split_and!; [done | left; by rewrite Hr | by right; left
                | repeat constructor].
Qed.

Lemma failed_mutation_leaves_collection_witness :
  let b := Sample.boardOf [Sample.t1; Sample.t3] (Some (lit "1")) in
  let add := AddTask (lit "Todo") (lit "Call Ana") [] in
  let del := DeleteTask (lit "1") in
  let upd := UpdateTask (lit "1") Sample.describe in
  let drop := DragEnd {| KanbanBoard.active := lit "1";
                         KanbanBoard.over := Some (lit "Done") |} in
  (remoteCallFails Sample.failing b add ∧
   tasks (board (after Sample.failing b (Mutate add))) = tasks b) ∧
  (remoteCallFails Sample.failing b del ∧
   tasks (board (after Sample.failing b (Mutate del))) = tasks b) ∧
  (remoteCallFails Sample.failing b upd ∧
   tasks (board (after Sample.failing b (Mutate upd))) = tasks b) ∧
  (remoteCallFails Sample.failing b drop ∧
   tasks (board (after Sample.failing b (Mutate drop))) = tasks b).
Proof.
  intros b add del upd drop.
  assert (H1 : remoteCallFails Sample.failing b add) by reflexivity.
  assert (H2 : remoteCallFails Sample.failing b del) by reflexivity.
  assert (H3 : remoteCallFails Sample.failing b upd) by reflexivity.
  assert (H4 : remoteCallFails Sample.failing b drop).
  { exists Sample.t1, (lit "Done"). split_and!; [reflexivity | reflexivity | | reflexivity].
    discriminate. }
  split_and!;
    [exact H1 | exact (proj1 (failed_mutation_leaves_collection Sample.failing b add H1))
    | exact H2 | exact (proj1 (failed_mutation_leaves_collection Sample.failing b del H2))
    | exact H3 | exact (proj1 (failed_mutation_leaves_collection Sample.failing b upd H3))
    | exact H4 | exact (proj1 (failed_mutation_leaves_collection Sample.failing b drop H4))].
Defined.

(** The failed cross-column drop of the specification: the message shown
    is the fallback text, and the dragged task keeps its status. *)
Example failed_drop_keeps_status :
  let b := Sample.boardOf [Sample.t1; Sample.t3] (Some (lit "1")) in
  let m := DragEnd {| KanbanBoard.active := lit "1";
                      KanbanBoard.over := Some (lit "Done") |} in
  status <$> tasks (board (after Sample.failing b (Mutate m)))
    = [lit "Todo"; lit "Done"] ∧
  Toast false (lit "Failed to update task") ∈ trace (after Sample.failing b (Mutate m)).
Proof.
  intros b m. split; [reflexivity|].
  apply list_elem_of_further, list_elem_of_here.
Qed.

(** ** Adding a task *)

(** C5. When the insert succeeds and returns the canonical record of the
    submitted row, the local collection becomes the prior collection with
    that record appended as its last element; the record's status is the
    target column, its priority is medium, its id is the one the store
    returned (the submitted row carries none), and every earlier task keeps
    its place. *)
Theorem add_appends_canonical_record (s : Store) (b : Board)
    (columnId title description : jsstring) (record : Task) :
  let row := {| new_title := title; new_description := description;
                new_status := columnId; new_priority := medium |} in
  onInsert s row = Fulfilled {| data := Some record; Supabase.error := None |} →
  canonicalFor row record →
  let l' := tasks (board (after s b (Mutate (AddTask columnId title description)))) in
  l' = tasks b ++ [record] ∧
  last l' = Some record ∧
  (∀ T, last l' = Some T →
        status T = columnId ∧ priority T = medium ∧ id T = id record) ∧
  (∀ i T, tasks b !! i = Some T → l' !! i = Some T) ∧
  head (trace (after s b (Mutate (AddTask columnId title description))))
    = Some (Remote (InsertSingle row) (onInsert s row)).
Proof.
  intros row Hins (_ & _ & Hstatus & Hpriority) l'.
  assert (Hl' : l' = tasks b ++ [record]).
  { subst l'. rewrite after_mutate. simpl. rewrite run_handleAddTask. simpl.
    fold row. by rewrite Hins. }
  split_and!.
  - done.
  - rewrite Hl'. apply last_snoc.
  - rewrite Hl', last_snoc. by intros T [= <-].
  - intros i T Hi. rewrite Hl'. by apply lookup_app_l_Some.
  - rewrite after_mutate. simpl. rewrite run_handleAddTask. simpl.
    fold row. by rewrite Hins.
Qed.

Lemma add_appends_canonical_record_witness :
  let b := Sample.boardOf [Sample.t1; Sample.t3] None in
  let row := {| new_title := lit "Buy milk"; new_description := [];
                new_status := lit "Todo"; new_priority := medium |} in
  let record := {| id := lit "9"; title := lit "Buy milk"; description := [];
                   status := lit "Todo"; priority := medium; assignee := None |} in
  let l' := tasks (board (after Sample.accepting b
                            (Mutate (AddTask (lit "Todo") (lit "Buy milk") [])))) in
  onInsert Sample.accepting row
    = Fulfilled {| data := Some record; Supabase.error := None |} ∧
  canonicalFor row record ∧
  l' = tasks b ++ [record] ∧
  last l' = Some record.
Proof.
  intros b row record l'.
  assert (H1 : onInsert Sample.accepting row
               = Fulfilled {| data := Some record; Supabase.error := None |})
    by reflexivity.
  assert (H2 : canonicalFor row record) by (repeat split).
  split; [exact H1|]. split; [exact H2|].
  pose proof (add_appends_canonical_record Sample.accepting b
                (lit "Todo") (lit "Buy milk") [] record H1 H2) as (Ha & Hb & _).
  split; [exact Ha | exact Hb].
Defined.

(** ** Editing a task *)

Lemma lookup_map_by_id (l : list Task) (taskId : jsstring) (updates : PartialTask)
    (i : nat) :
  List.map (λ task, if bool_decide (id task = taskId)
                    then spread task updates else task) l !! i
  = (λ task, if bool_decide (id task = taskId)
             then spread task updates else task) <$> l !! i.
Proof. apply (list_lookup_fmap _ l i). Qed.

(** C6. After a successful partial update keyed by an id, the collection
    has the same length; at every position, a task with another id is
    unchanged, and a task with that id keeps every field the update does
    not include and takes the fields it includes. *)
Theorem update_preserves_unrelated (s : Store) (b : Board)
    (taskId : jsstring) (updates : PartialTask) :
  failed (onUpdate s updates taskId) = false →
  let l' := tasks (board (after s b (Mutate (UpdateTask taskId updates)))) in
  length l' = length (tasks b) ∧
  ∀ i T, tasks b !! i = Some T →
    ∃ T', l' !! i = Some T' ∧
      (id T ≠ taskId → T' = T) ∧
      (id T = taskId →
         (upd_id updates = None → id T' = id T) ∧
         (upd_title updates = None → title T' = title T) ∧
         (upd_description updates = None → description T' = description T) ∧
         (upd_status updates = None → status T' = status T) ∧
         (upd_priority updates = None → priority T' = priority T) ∧
         (upd_assignee updates = None → assignee T' = assignee T) ∧
         (∀ v, upd_id updates = Some v → id T' = v) ∧
         (∀ v, upd_title updates = Some v → title T' = v) ∧
         (∀ v, upd_description updates = Some v → description T' = v) ∧
         (∀ v, upd_status updates = Some v → status T' = v) ∧
         (∀ v, upd_priority updates = Some v → priority T' = v) ∧
         (∀ v, upd_assignee updates = Some v → assignee T' = v)).
Proof.
  intros Hok l'.
  assert (Hl' : l' = List.map (λ task, if bool_decide (id task = taskId)
                                       then spread task updates else task) (tasks b)).
  { subst l'. rewrite after_mutate. simpl. rewrite run_handleUpdateTask. simpl.
    unfold failed in Hok. by destruct (failure _). }
  rewrite Hl'. split; [apply length_map|].
  intros i T Hi. rewrite lookup_map_by_id, Hi. simpl.
  eexists. split; [done|]. split.
  - intros Hne. by rewrite bool_decide_eq_false_2.
  - intros Heq. rewrite bool_decide_eq_true_2 by done.
    destruct updates as [[?|] [?|] [?|] [?|] [?|] [?|]]; simpl;
      split_and!; (done || by intros ? [= <-]).
Qed.

Lemma update_preserves_unrelated_witness :
  let b := Sample.boardOf [Sample.t1; Sample.t3] None in
  let l' := tasks (board (after Sample.accepting b
                            (Mutate (UpdateTask (lit "1") Sample.describe)))) in
  failed (onUpdate Sample.accepting Sample.describe (lit "1")) = false ∧
  length l' = length (tasks b).
Proof.
  intros b l'.
  assert (H1 : failed (onUpdate Sample.accepting Sample.describe (lit "1")) = false)
    by reflexivity.
  split; [exact H1|].
  exact (proj1 (update_preserves_unrelated Sample.accepting b
                  (lit "1") Sample.describe H1)).
Defined.

(** The case named by the specification: an update of [description] alone. *)
Example update_description_only :
  tasks (board (after Sample.accepting (Sample.boardOf [Sample.t1; Sample.t3] None)
                  (Mutate (UpdateTask (lit "1") Sample.describe))))
  = [ {| id := lit "1"; title := lit "Buy milk";
         description := lit "two litres"; status := lit "Todo";
         priority := medium; assignee := None |};
      Sample.t3 ].
Proof. reflexivity. Qed.

(** ** The new-task form *)

(** C7. A submission of the add form whose title is empty or
    whitespace-only issues no remote call and adds nothing (the "Add Task"
    button is disabled, the form and the board stay as they were); a
    submission with any other title forwards the trimmed title and the
    trimmed description to the create operation, which sends them to the
    store. *)
Theorem blank_title_rejected_fields_trimmed (s : Store) (b : Board)
    (columnId : jsstring) (form : Column.Form) :
  let submitted := submitForm (tasks b) columnId form in
  let w := snd (run s (snd submitted) b) in
  let title' := trim (Column.newTaskTitle form) in
  let description' := trim (Column.newTaskDescription form) in
  (whitespaceOnly (Column.newTaskTitle form) →
     Column.addDisabled form = true ∧
     submitted = (form, Ret tt) ∧ trace w = [] ∧ board w = b) ∧
  (¬ whitespaceOnly (Column.newTaskTitle form) →
     Column.addDisabled form = false ∧
     snd submitted = KanbanBoard.handleAddTask (tasks b) columnId title' description' ∧
     trimmedFrom (Column.newTaskTitle form) title' ∧
     trimmedFrom (Column.newTaskDescription form) description' ∧
     ∃ r, trace w !! 0
          = Some (Remote (InsertSingle {| new_title := title';
                                          new_description := description';
                                          new_status := columnId;
                                          new_priority := medium |}) r)).
Proof.
  intros submitted w title' description'.
  subst submitted w. unfold submitForm, Column.handleAddTask, Column.addDisabled.
  rewrite truthy_trim. split; intros Hws.
  - rewrite bool_decide_eq_true_2 by done. simpl. done.
  - rewrite bool_decide_eq_false_2 by done. simpl.
    split_and!; [done | done | apply trim_spec | apply trim_spec |].
    rewrite run_handleAddTask. simpl.
    destruct (onInsert s _) as [[[record|] [err|]]|reason]; simpl; eauto.
Qed.

Lemma blank_title_rejected_fields_trimmed_witness :
  let b := Sample.boardOf [Sample.t1] None in
  let blank := {| Column.isAddingTask := true; Column.newTaskTitle := lit "   ";
                  Column.newTaskDescription := lit "x" |} in
  let padded := {| Column.isAddingTask := true;
                   Column.newTaskTitle := lit "  Buy milk ";
                   Column.newTaskDescription := lit " two litres  " |} in
  (whitespaceOnly (Column.newTaskTitle blank) ∧
   trace (snd (run Sample.accepting
                 (snd (submitForm (tasks b) (lit "Todo") blank)) b)) = []) ∧
  (¬ whitespaceOnly (Column.newTaskTitle padded) ∧
   snd (submitForm (tasks b) (lit "Todo") padded)
   = KanbanBoard.handleAddTask (tasks b) (lit "Todo")
       (lit "Buy milk") (lit "two litres")).
Proof.
  intros b blank padded.
  assert (H1 : whitespaceOnly (Column.newTaskTitle blank)).
  { repeat constructor. }
  assert (H2 : ¬ whitespaceOnly (Column.newTaskTitle padded)).
  { intros Hws. do 2 apply Forall_cons_1 in Hws as [_ Hws].
    apply Forall_cons_1 in Hws as [Hc _]. discriminate Hc. }
  split.
  - split; [exact H1|].
    pose proof (proj1 (blank_title_rejected_fields_trimmed Sample.accepting b
                         (lit "Todo") blank) H1) as (_ & _ & Htrace & _).
    exact Htrace.
  - split; [exact H2|].
    pose proof (proj2 (blank_title_rejected_fields_trimmed Sample.accepting b
                         (lit "Todo") padded) H2) as (_ & Hfwd & _).
    exact Hfwd.
Defined.

(** ** Deleting a task *)

Lemma filter_other_ids_absent (l : list Task) (taskId : jsstring) :
  taskId ∉ ids l →
  List.filter (λ task, bool_decide (id task ≠ taskId)) l = l.
Proof.
  unfold ids. induction l as [|t l IH]; intros Habsent; simpl; [done|].
  rewrite fmap_cons in Habsent. apply not_elem_of_cons in Habsent as [Hne Habsent].
  rewrite bool_decide_eq_true_2 by done. by rewrite IH.
Qed.

(** C8. For an id that no task of the collection carries, the removal
    step of delete (keep the tasks with another id) returns the collection
    itself; the handler completes without throwing and leaves the
    collection as it was, whatever the store answers. *)
Theorem delete_absent_id_is_identity (s : Store) (b : Board) (taskId : jsstring) :
  taskId ∉ ids (tasks b) →
  List.filter (λ task, bool_decide (id task ≠ taskId)) (tasks b) = tasks b ∧
  fst (run s (KanbanBoard.handleDeleteTask (tasks b) taskId) b) = Returned tt ∧
  tasks (board (after s b (Mutate (DeleteTask taskId)))) = tasks b.
Proof.
  intros Habsent. rewrite after_mutate. simpl. rewrite run_handleDeleteTask. simpl.
  rewrite filter_other_ids_absent by done.
  split_and!; [done | done |]. by destruct (failure _).
Qed.

Lemma delete_absent_id_is_identity_witness :
  let b := Sample.boardOf [Sample.t1; Sample.t3] None in
  (lit "7" ∉ ids (tasks b)) ∧
  tasks (board (after Sample.accepting b (Mutate (DeleteTask (lit "7"))))) = tasks b.
Proof.
  intros b.
  assert (H1 : lit "7" ∉ ids (tasks b)).
  { intros Hin. apply elem_of_cons in Hin as [Hin | Hin]; [discriminate Hin|].
    apply elem_of_cons in Hin as [Hin | Hin]; [discriminate Hin|].
    by apply elem_of_nil in Hin. }
  split; [exact H1|].
  exact (proj2 (proj2 (delete_absent_id_is_identity Sample.accepting b (lit "7") H1))).
Defined.

(** ** Uniqueness of identifiers *)

Lemma ids_filter_sublist (f : Task → bool) (l : list Task) :
  sublist (ids (List.filter f l)) (ids l).
Proof. unfold ids. apply fmap_sublist, filter_sublist. Qed.

Lemma ids_map_spread (l : list Task) (taskId : jsstring) (updates : PartialTask) :
  upd_id updates = None →
  ids (List.map (λ task, if bool_decide (id task = taskId)
                         then spread task updates else task) l) = ids l.
Proof.
  intros Hid. unfold ids. induction l as [|t l IH]; [done|].
  cbn [List.map]. rewrite !fmap_cons. f_equal; [|exact IH].
  case_bool_decide; [|done]. simpl. by rewrite Hid.
Qed.

Lemma ids_snoc_fresh (l : list Task) (record : Task) :
  idsDistinct l → id record ∉ ids l → idsDistinct (l ++ [record]).
Proof.
  unfold idsDistinct, ids. intros Hnd Hfresh. rewrite fmap_app. simpl.
  apply NoDup_app. split_and!; [done | | apply NoDup_singleton].
  intros x Hx ->%list_elem_of_singleton. done.
Qed.

(** The edits a card issues carry the title and the description only, so
    they leave the ids alone. *)
Lemma card_save_forwards (onUpdate : jsstring → PartialTask → Prog unit)
    (task : Task) (ed : Card.Editor) :
  trim (Card.editedTitle ed) ≠ [] →
  snd (Card.handleSave onUpdate task ed)
  = onUpdate (id task)
      (Card.titleAndDescription (Card.editedTitle ed) (Card.editedDescription ed)).
Proof. intros Hne. unfold Card.handleSave. by rewrite bool_decide_eq_false_2. Qed.

Lemma card_save_respects_ids (s : Store) (b : Board) (task : Task)
    (t d : jsstring) :
  respectsIds s b (Mutate (UpdateTask (id task) (Card.titleAndDescription t d))).
Proof. reflexivity. Qed.

(** At the level of the handlers: distinct ids stay distinct through any
    operation that respects the ids. *)
Lemma ids_distinct_through_operation (s : Store) (b : Board) (op : Operation) :
  idsDistinct (tasks b) →
  respectsIds s b op →
  idsDistinct (tasks (board (after s b op))).
Proof.
  intros Hnd Hop. destruct op as [|[columnId title description | taskId
    | taskId updates | event]]; unfold after; simpl in *.
  - rewrite run_fetchTasks. simpl.
    destruct (onSelect s) as [[[rows|] [err|]]|reason]; simpl; try done.
    + by apply Hop.
    + apply NoDup_nil_2.
  - rewrite run_handleAddTask. simpl.
    destruct (onInsert s _) as [[[record|] [err|]]|reason]; simpl; try done.
    apply ids_snoc_fresh; [done | by apply Hop].
  - rewrite run_handleDeleteTask. simpl.
    destruct (failure _); simpl; [done|].
    eapply sublist_NoDup; [exact Hnd | apply ids_filter_sublist].
  - rewrite run_handleUpdateTask. simpl.
    destruct (failure _); simpl; [done|].
    unfold idsDistinct. by rewrite ids_map_spread.
  - rewrite run_handleDragEnd.
    destruct (KanbanBoard.over event) as [overColumn|]; simpl; [|done].
    destruct (List.find _ _) as [activeTask|]; simpl; [|done].
    case_bool_decide; simpl; [|done].
    destruct (failure _); simpl; [done|].
    unfold idsDistinct. by rewrite ids_map_spread.
Qed.

(** C9. Id uniqueness is an invariant of the local collection.  The ids
    being the store's (a listing repeats none, an inserted record gets a
    fresh one), pairwise distinct ids are still pairwise distinct after
    any single operation the board issues: a load, an add, an edit from a
    card, a delete, a drag completion, whether the store accepts it or
    not. *)
Theorem ids_stay_distinct (s : Store) (b : Board) (g : Gesture) :
  idsDistinct (tasks b) →
  storeAssignsUniqueIds s b →
  idsDistinct (tasks (boardAfter s (gesture b g) b)).
Proof.
  intros Hnd [Hlist Hfresh].
  destruct g as [|columnId form|task ed|task|event]; simpl.
  - apply (ids_distinct_through_operation s b Load); [done|]. exact Hlist.
  - unfold submitForm, Column.handleAddTask.
    destruct (truthy _); simpl; [|done].
    apply (ids_distinct_through_operation s b
             (Mutate (AddTask columnId (trim (Column.newTaskTitle form))
                        (trim (Column.newTaskDescription form))))); [done|].
    intros record. apply Hfresh.
  - unfold saveCard, Card.handleSave. case_bool_decide; simpl; [done|].
    by apply (ids_distinct_through_operation s b
                (Mutate (UpdateTask (id task)
                           (Card.titleAndDescription (Card.editedTitle ed)
                              (Card.editedDescription ed))))).
  - by apply (ids_distinct_through_operation s b (Mutate (DeleteTask (id task)))).
  - by apply (ids_distinct_through_operation s b (Mutate (DragEnd event))).
Qed.

Lemma ids_stay_distinct_witness :
  let b := Sample.boardOf [Sample.t1; Sample.t3] None in
  let edit := SaveCard Sample.t1
                {| Card.isEditing := true; Card.editedTitle := lit "Buy oat milk";
                   Card.editedDescription := lit "two litres" |} in
  let add := SubmitNew (lit "Todo")
               {| Column.isAddingTask := true; Column.newTaskTitle := lit "Call Ana";
                  Column.newTaskDescription := [] |} in
  idsDistinct (tasks b) ∧
  storeAssignsUniqueIds Sample.accepting b ∧
  ids (tasks (boardAfter Sample.accepting (gesture b add) b))
    = [lit "1"; lit "3"; lit "9"] ∧
  idsDistinct (tasks (boardAfter Sample.accepting (gesture b Reload) b)) ∧
  idsDistinct (tasks (boardAfter Sample.accepting (gesture b add) b)) ∧
  idsDistinct (tasks (boardAfter Sample.accepting (gesture b edit) b)).
Proof.
  intros b edit add.
  assert (H1 : idsDistinct (tasks b)).
  { apply (bool_decide_unpack _). reflexivity. }
  assert (H2 : storeAssignsUniqueIds Sample.accepting b).
  { split.
    - intros rows [= <-]. apply (bool_decide_unpack _). reflexivity.
    - intros row record [= <-] Hin.
      repeat (apply elem_of_cons in Hin as [Hin | Hin]; [discriminate Hin|]).
      by apply elem_of_nil in Hin. }
  split_and!; [exact H1 | exact H2 | reflexivity | | |];
    apply (ids_stay_distinct Sample.accepting b _ H1 H2).
Defined.

(** * Further properties of the components *)

(** ** Loading *)

Lemma after_load_failed (s : Store) (b : Board) (err : Thrown) :
  failure (onSelect s) = Some err →
  after s b Load
  = {| board := withIsLoading false
                  (withError (Some (errorMessage err (lit "Failed to fetch tasks")))
                     (withError None b));
       trace := [Remote SelectOrdered (onSelect s);
                 Toast false (errorMessage err (lit "Failed to fetch tasks"))] |}.
Proof.
  intros Hfail. unfold after. simpl. rewrite run_fetchTasks. simpl.
  destruct (onSelect s) as [[rows [err'|]]|reason]; simpl in Hfail;
    try discriminate; by injection Hfail as ->.
Qed.

Lemma after_load_ok (s : Store) (b : Board) (rows : option (list Task)) :
  onSelect s = Fulfilled {| data := rows; Supabase.error := None |} →
  after s b Load
  = {| board := withIsLoading false (withTasks (default [] rows) (withError None b));
       trace := [Remote SelectOrdered (onSelect s)] |}.
Proof.
  intros Hok. unfold after. simpl. rewrite run_fetchTasks. simpl. by rewrite Hok.
Qed.

(** X1. A failed load keeps the collection it found, leaves the loading
    flag off, and puts one message both in the error cell and in the
    failure toast: the thrown value's own message when it is an [Error],
    the fixed text otherwise. *)
Theorem load_failure_keeps_collection (s : Store) (b : Board) (err : Thrown) :
  failure (onSelect s) = Some err →
  ∃ message,
    message = (if instanceofError err then JS.message err
               else lit "Failed to fetch tasks") ∧
    board (after s b Load)
    = {| tasks := tasks b; activeId := activeId b; searchQuery := searchQuery b;
         isLoading := false; error := Some message |} ∧
    trace (after s b Load)
    = [Remote SelectOrdered (onSelect s); Toast false message].
Proof.
  intros Hfail. eexists. split; [reflexivity|].
  by rewrite (after_load_failed s b err Hfail).
Qed.

Lemma load_failure_keeps_collection_witness :
  let b := Sample.boardOf [Sample.t1; Sample.t3] None in
  failure (onSelect Sample.failing) = Some Sample.networkDown ∧
  tasks (board (after Sample.failing b Load)) = [Sample.t1; Sample.t3] ∧
  error (board (after Sample.failing b Load)) = Some (lit "Failed to fetch").
Proof.
  intros b.
  assert (H1 : failure (onSelect Sample.failing) = Some Sample.networkDown)
    by reflexivity.
  split; [exact H1|].
  destruct (load_failure_keeps_collection Sample.failing b Sample.networkDown H1)
    as (message & -> & -> & _).
  split; reflexivity.
Defined.

(** X2. Retry: a load that succeeds after a load that failed clears the
    error, stores the listing as it comes (the empty collection when the
    store resolves without data) and shows no toast; nothing of the failed
    attempt or of the earlier collection remains. *)
Theorem retry_after_failed_load (s1 s2 : Store) (b : Board)
    (rows : option (list Task)) :
  failed (onSelect s1) = true →
  onSelect s2 = Fulfilled {| data := rows; Supabase.error := None |} →
  after s2 (board (after s1 b Load)) Load
  = {| board := {| tasks := default [] rows; activeId := activeId b;
                   searchQuery := searchQuery b; isLoading := false;
                   error := None |};
       trace := [Remote SelectOrdered (onSelect s2)] |}.
Proof.
  intros Hfail Hok. unfold failed in Hfail.
  destruct (failure (onSelect s1)) as [err|] eqn:Herr; [|done].
  rewrite (after_load_failed s1 b err Herr). simpl.
  by rewrite (after_load_ok s2 _ rows Hok).
Qed.

Lemma retry_after_failed_load_witness :
  let b := Sample.boardOf [Sample.t4] None in
  failed (onSelect Sample.failing) = true ∧
  onSelect Sample.accepting
    = Fulfilled {| data := Some [Sample.t1; Sample.t2; Sample.t3];
                   Supabase.error := None |} ∧
  tasks (board (after Sample.accepting (board (after Sample.failing b Load)) Load))
    = [Sample.t1; Sample.t2; Sample.t3].
Proof.
  intros b.
  assert (H1 : failed (onSelect Sample.failing) = true) by reflexivity.
  assert (H2 : onSelect Sample.accepting
               = Fulfilled {| data := Some [Sample.t1; Sample.t2; Sample.t3];
                              Supabase.error := None |}) by reflexivity.
  split; [exact H1|]. split; [exact H2|].
  by rewrite (retry_after_failed_load Sample.failing Sample.accepting b _ H1 H2).
Defined.

(** X3. After a failed load the render returns the error page exactly when
    the message is not the empty string: a thrown value that is not an
    [Error] always gives the page (the fixed text is not empty), an [Error]
    whose message is empty gives the board. *)
Theorem error_page_iff_message_nonempty (s : Store) (b : Board) (err : Thrown) :
  failure (onSelect s) = Some err →
  let shown := KanbanBoard.errorPage (error (board (after s b Load))) in
  (instanceofError err = false → shown = Some (lit "Failed to fetch tasks")) ∧
  (instanceofError err = true → JS.message err ≠ [] → shown = Some (JS.message err)) ∧
  (instanceofError err = true → JS.message err = [] → shown = None).
Proof.
  intros Hfail shown. subst shown.
  rewrite (after_load_failed s b err Hfail). simpl.
  unfold errorMessage, KanbanBoard.errorPage.
  split_and!; intros Hinst; rewrite Hinst; [done | |].
  - intros Hne. by destruct (JS.message err).
  - by intros ->.
Qed.

Lemma error_page_iff_message_nonempty_witness :
  let b := Sample.boardOf [Sample.t1] None in
  let silent := {| instanceofError := true; message := [] |} in
  let s := {| onSelect := Rejected silent; onInsert := onInsert Sample.failing;
              onUpdate := onUpdate Sample.failing;
              onDelete := onDelete Sample.failing |} in
  failure (onSelect s) = Some silent ∧
  KanbanBoard.errorPage (error (board (after s b Load))) = None.
Proof.
  intros b silent s.
  assert (H1 : failure (onSelect s) = Some silent) by reflexivity.
  split; [exact H1|].
  exact (proj2 (proj2 (error_page_iff_message_nonempty s b silent H1))
           eq_refl eq_refl).
Defined.

(** ** Moving a task *)

Lemma after_move_ok (s : Store) (b : Board) (event : KanbanBoard.DragEndEvent)
    (T : Task) (overColumn : jsstring) :
  List.find (λ task, bool_decide (id task = KanbanBoard.active event)) (tasks b)
    = Some T →
  KanbanBoard.over event = Some overColumn →
  status T ≠ overColumn →
  failed (onUpdate s (onlyStatus overColumn) (id T)) = false →
  after s b (Mutate (DragEnd event))
  = {| board := withActiveId None (withTasks (moved (id T) overColumn (tasks b)) b);
       trace := [Remote (UpdateEq (onlyStatus overColumn) (id T))
                   (onUpdate s (onlyStatus overColumn) (id T));
                 Toast true (lit "Task moved successfully")] |}.
Proof.
  intros Hfind Hover Hne Hok. rewrite after_mutate. simpl.
  rewrite run_handleDragEnd, Hover, Hfind. simpl.
  rewrite bool_decide_eq_true_2 by done.
  unfold failed in Hok. by destruct (failure _).
Qed.

Lemma elem_of_moved (taskId overColumn : jsstring) (l : list Task) (t : Task) :
  t ∈ moved taskId overColumn l ↔
  ∃ t0, t0 ∈ l ∧
        t = if bool_decide (id t0 = taskId)
            then spread t0 (onlyStatus overColumn) else t0.
Proof.
  unfold moved. rewrite list_elem_of_In, in_map_iff.
  split; intros (t0 & H1 & H2); exists t0.
  - by rewrite list_elem_of_In.
  - by rewrite <- list_elem_of_In.
Qed.

Lemma lookup_moved (taskId overColumn : jsstring) (l : list Task) (i : nat) :
  moved taskId overColumn l !! i
  = (λ task, if bool_decide (id task = taskId)
             then spread task (onlyStatus overColumn) else task) <$> l !! i.
Proof. apply lookup_map_by_id. Qed.

Lemma ids_moved (taskId overColumn : jsstring) (l : list Task) :
  ids (moved taskId overColumn l) = ids l.
Proof. by apply ids_map_spread. Qed.

Lemma lower_columns_inj `{CaseConversion} (C1 C2 : jsstring) :
  C1 ∈ KanbanBoard.defaultColumns →
  C2 ∈ KanbanBoard.defaultColumns →
  toLowerCase C1 = toLowerCase C2 →
  C1 = C2.
Proof.
  intros [i Hi]%list_elem_of_lookup [j Hj]%list_elem_of_lookup Heq.
  assert (i = j) as ->; [|congruence].
  eapply NoDup_lookup; [apply defaultColumns_distinct_ignoring_case | |].
  - rewrite list_lookup_fmap, Hi. reflexivity.
  - rewrite list_lookup_fmap, Hj. simpl. congruence.
Qed.

(** X4. A successful cross-column move changes the status of the dragged
    task and nothing else: the collection keeps its length and its ids in
    order, every task under another id is untouched, the dragged task
    keeps all its other fields; the dragged identifier is cleared, and the
    store was called once, before the success toast. *)
Theorem move_success_frame (s : Store) (b : Board)
    (event : KanbanBoard.DragEndEvent) (T : Task) (overColumn : jsstring) :
  List.find (λ task, bool_decide (id task = KanbanBoard.active event)) (tasks b)
    = Some T →
  KanbanBoard.over event = Some overColumn →
  status T ≠ overColumn →
  failed (onUpdate s (onlyStatus overColumn) (id T)) = false →
  let w := after s b (Mutate (DragEnd event)) in
  ids (tasks (board w)) = ids (tasks b) ∧
  (∀ i t, tasks b !! i = Some t →
     tasks (board w) !! i
     = Some (if bool_decide (id t = id T)
             then {| id := id t; title := title t; description := description t;
                     status := overColumn; priority := priority t;
                     assignee := assignee t |}
             else t)) ∧
  activeId (board w) = None ∧
  trace w = [Remote (UpdateEq (onlyStatus overColumn) (id T))
               (onUpdate s (onlyStatus overColumn) (id T));
             Toast true (lit "Task moved successfully")].
Proof.
  intros Hfind Hover Hne Hok w. subst w.
  rewrite (after_move_ok s b event T overColumn) by done. simpl.
  split_and!; [apply ids_moved | | done | done].
  intros i t Hi. by rewrite lookup_moved, Hi.
Qed.

Lemma move_success_frame_witness :
  let b := Sample.boardOf [Sample.t1; Sample.t3] (Some (lit "1")) in
  let event := {| KanbanBoard.active := lit "1";
                  KanbanBoard.over := Some (lit "Done") |} in
  List.find (λ task, bool_decide (id task = KanbanBoard.active event)) (tasks b)
    = Some Sample.t1 ∧
  KanbanBoard.over event = Some (lit "Done") ∧
  status Sample.t1 ≠ lit "Done" ∧
  failed (onUpdate Sample.accepting (onlyStatus (lit "Done")) (id Sample.t1)) = false ∧
  ids (tasks (board (after Sample.accepting b (Mutate (DragEnd event)))))
    = ids (tasks b).
Proof.
  intros b event.
  assert (H1 : List.find (λ task, bool_decide (id task = KanbanBoard.active event))
                 (tasks b) = Some Sample.t1) by reflexivity.
  assert (H2 : KanbanBoard.over event = Some (lit "Done")) by reflexivity.
  assert (H3 : status Sample.t1 ≠ lit "Done") by discriminate.
  assert (H4 : failed (onUpdate Sample.accepting (onlyStatus (lit "Done"))
                         (id Sample.t1)) = false) by reflexivity.
  split_and!; [exact H1 | exact H2 | exact H3 | exact H4 |].
  exact (proj1 (move_success_frame Sample.accepting b event Sample.t1
                  (lit "Done") H1 H2 H3 H4)).
Defined.

(** X5. After a successful move onto a configured column, the dragged task
    (with its new status) is listed in that column whenever its title
    passes the search, and in no other column. *)
Theorem move_shows_in_target_column `{CaseConversion} (s : Store) (b : Board)
    (event : KanbanBoard.DragEndEvent) (T : Task) (C Q : jsstring) :
  List.find (λ task, bool_decide (id task = KanbanBoard.active event)) (tasks b)
    = Some T →
  KanbanBoard.over event = Some C →
  status T ≠ C →
  failed (onUpdate s (onlyStatus C) (id T)) = false →
  C ∈ KanbanBoard.defaultColumns →
  containsIgnoreCase (title T) Q →
  let l' := tasks (board (after s b (Mutate (DragEnd event)))) in
  let T' := spread T (onlyStatus C) in
  T' ∈ KanbanBoard.columnTasks l' Q C ∧
  ∀ C', C' ∈ KanbanBoard.defaultColumns →
        T' ∈ KanbanBoard.columnTasks l' Q C' → C' = C.
Proof.
  intros Hfind Hover Hne Hok HC HQ l' T'. subst l'.
  rewrite (after_move_ok s b event T C) by done. simpl. split.
  - apply elem_of_columnTasks; [done|]. split_and!; [|done|done].
    apply elem_of_moved. exists T. split.
    + by apply find_some in Hfind as [?%list_elem_of_In _].
    + by rewrite bool_decide_eq_true_2.
  - intros C' HC' (_ & Heq & _)%elem_of_columnTasks; [|done].
    by apply lower_columns_inj.
Qed.

Lemma move_shows_in_target_column_witness :
  let b := Sample.boardOf [Sample.t1; Sample.t3] (Some (lit "1")) in
  let event := {| KanbanBoard.active := lit "1";
                  KanbanBoard.over := Some (lit "Done") |} in
  List.find (λ task, bool_decide (id task = KanbanBoard.active event)) (tasks b)
    = Some Sample.t1 ∧
  lit "Done" ∈ KanbanBoard.defaultColumns ∧
  containsIgnoreCase (title Sample.t1) (lit "MILK") ∧
  spread Sample.t1 (onlyStatus (lit "Done"))
    ∈ KanbanBoard.columnTasks
        (tasks (board (after Sample.accepting b (Mutate (DragEnd event)))))
        (lit "MILK") (lit "Done").
Proof.
  intros b event.
  assert (H1 : List.find (λ task, bool_decide (id task = KanbanBoard.active event))
                 (tasks b) = Some Sample.t1) by reflexivity.
  assert (H2 : KanbanBoard.over event = Some (lit "Done")) by reflexivity.
  assert (H3 : status Sample.t1 ≠ lit "Done") by discriminate.
  assert (H4 : failed (onUpdate Sample.accepting (onlyStatus (lit "Done"))
                         (id Sample.t1)) = false) by reflexivity.
  assert (H5 : lit "Done" ∈ KanbanBoard.defaultColumns).
  { apply list_elem_of_further, list_elem_of_further, list_elem_of_here. }
  assert (H6 : containsIgnoreCase (title Sample.t1) (lit "MILK")).
  { exists (lit "buy "), []. reflexivity. }
  split_and!; [exact H1 | exact H5 | exact H6 |].
  exact (proj1 (move_shows_in_target_column Sample.accepting b event Sample.t1
                  (lit "Done") (lit "MILK") H1 H2 H3 H4 H5 H6)).
Defined.

(** X6. The drop target is not checked against the configured columns.
    After a successful move onto an identifier that matches no column
    (another card's id, say), no column lists a task under the dragged id,
    whatever the search. *)
Theorem move_to_unknown_target_hides_task `{CaseConversion} (s : Store)
    (b : Board) (event : KanbanBoard.DragEndEvent) (T : Task) (target : jsstring) :
  List.find (λ task, bool_decide (id task = KanbanBoard.active event)) (tasks b)
    = Some T →
  KanbanBoard.over event = Some target →
  status T ≠ target →
  failed (onUpdate s (onlyStatus target) (id T)) = false →
  (∀ C, C ∈ KanbanBoard.defaultColumns → ¬ equalsIgnoreCase target C) →
  let l' := tasks (board (after s b (Mutate (DragEnd event)))) in
  id T ∈ ids l' ∧
  ∀ Q C t, C ∈ KanbanBoard.defaultColumns →
           t ∈ KanbanBoard.columnTasks l' Q C → id t ≠ id T.
Proof.
  intros Hfind Hover Hne Hok Hunknown l'. subst l'.
  rewrite (after_move_ok s b event T target) by done. simpl. split.
  - rewrite ids_moved. apply list_elem_of_fmap_2.
    by apply find_some in Hfind as [?%list_elem_of_In _].
  - intros Q C t HC (Hin & Heq & _)%elem_of_columnTasks; [|done].
    apply elem_of_moved in Hin as (t0 & _ & ->).
    case_bool_decide as Hid; [|done].
    exfalso. by apply (Hunknown C HC).
Qed.

Lemma move_to_unknown_target_hides_task_witness :
  let b := Sample.boardOf [Sample.t1; Sample.t3] (Some (lit "1")) in
  let event := {| KanbanBoard.active := lit "1";
                  KanbanBoard.over := Some (lit "3") |} in
  List.find (λ task, bool_decide (id task = KanbanBoard.active event)) (tasks b)
    = Some Sample.t1 ∧
  (∀ C, C ∈ KanbanBoard.defaultColumns → ¬ equalsIgnoreCase (lit "3") C) ∧
  id Sample.t1 ∈ ids (tasks (board (after Sample.accepting b (Mutate (DragEnd event))))).
Proof.
  intros b event.
  assert (H1 : List.find (λ task, bool_decide (id task = KanbanBoard.active event))
                 (tasks b) = Some Sample.t1) by reflexivity.
  assert (H2 : KanbanBoard.over event = Some (lit "3")) by reflexivity.
  assert (H3 : status Sample.t1 ≠ lit "3") by discriminate.
  assert (H4 : failed (onUpdate Sample.accepting (onlyStatus (lit "3"))
                         (id Sample.t1)) = false) by reflexivity.
  assert (H5 : ∀ C, C ∈ KanbanBoard.defaultColumns →
                    ¬ equalsIgnoreCase (lit "3") C).
  { intros C HC Heq.
    repeat (apply elem_of_cons in HC as [-> | HC]; [discriminate Heq|]).
    by apply elem_of_nil in HC. }
  split_and!; [exact H1 | exact H5 |].
  exact (proj1 (move_to_unknown_target_hides_task Sample.accepting b event
                  Sample.t1 (lit "3") H1 H2 H3 H4 H5)).
Defined.

Lemma columnTasks_unfold `{CaseConversion} (l : list Task) (Q C : jsstring) :
  KanbanBoard.columnTasks l Q C
  = if decide (C ∈ KanbanBoard.defaultColumns)
    then List.filter
           (λ task, bool_decide (toLowerCase (status task) = toLowerCase C))
           (KanbanBoard.filteredTasks l Q)
    else [].
Proof.
  unfold KanbanBoard.columnTasks. rewrite tasksByColumn_lookup.
  by case_decide.
Qed.

Lemma filter_map_agree {A} (p : A → bool) (f : A → A) (l : list A) :
  (∀ x, x ∈ l → p (f x) = p x) →
  List.filter p (List.map f l) = List.map f (List.filter p l).
Proof.
  induction l as [|x l IH]; intros Hagree; [done|]. simpl.
  rewrite Hagree by apply list_elem_of_here.
  rewrite IH by (intros y Hy; apply Hagree; by apply list_elem_of_further).
  by destruct (p x).
Qed.

Lemma same_id_same_task (l : list Task) (t T : Task) :
  idsDistinct l → t ∈ l → T ∈ l → id t = id T → t = T.
Proof.
  unfold idsDistinct, ids.
  intros Hnd [i Hi]%list_elem_of_lookup [j Hj]%list_elem_of_lookup Hid.
  assert (i = j) as ->; [|congruence].
  eapply NoDup_lookup; [exact Hnd | |].
  - rewrite list_lookup_fmap, Hi. reflexivity.
  - rewrite list_lookup_fmap, Hj. simpl. congruence.
Qed.

(** X7. The drop guard compares statuses exactly, the partition ignores
    case.  A task listed in a column whose identifier differs from its
    status in case only, dropped on that very column, is sent to the store
    with the column's spelling; with distinct ids, every column lists the
    same ids in the same order after the move as before. *)
Theorem drop_on_displaying_column_rewrites_case `{CaseConversion} (s : Store)
    (b : Board) (event : KanbanBoard.DragEndEvent) (T : Task) (C : jsstring) :
  idsDistinct (tasks b) →
  List.find (λ task, bool_decide (id task = KanbanBoard.active event)) (tasks b)
    = Some T →
  KanbanBoard.over event = Some C →
  equalsIgnoreCase (status T) C →
  status T ≠ C →
  failed (onUpdate s (onlyStatus C) (id T)) = false →
  let w := after s b (Mutate (DragEnd event)) in
  trace w = [Remote (UpdateEq (onlyStatus C) (id T)) (onUpdate s (onlyStatus C) (id T));
             Toast true (lit "Task moved successfully")] ∧
  (∃ T', T' ∈ tasks (board w) ∧ id T' = id T ∧ status T' = C) ∧
  ∀ Q C', ids (KanbanBoard.columnTasks (tasks (board w)) Q C')
          = ids (KanbanBoard.columnTasks (tasks b) Q C').
Proof.
  intros Hnd Hfind Hover Heq Hne Hok w. subst w.
  rewrite (after_move_ok s b event T C) by done. simpl.
  assert (HT : T ∈ tasks b)
    by by apply find_some in Hfind as [?%list_elem_of_In _].
  split_and!; [done | |].
  - exists (spread T (onlyStatus C)). split_and!; [|done|done].
    apply elem_of_moved. exists T. by rewrite bool_decide_eq_true_2.
  - intros Q C'. rewrite !columnTasks_unfold. case_decide; [|done].
    unfold KanbanBoard.filteredTasks, moved.
    rewrite filter_map_agree.
    + rewrite filter_map_agree; [by apply ids_map_spread|].
      intros t Ht. destruct (decide (id t = id T)) as [Hid | Hid].
      * rewrite (bool_decide_eq_true_2 _ Hid). simpl.
        apply list_elem_of_In, filter_In in Ht as [Ht%list_elem_of_In _].
        rewrite (same_id_same_task (tasks b) t T) by done.
        unfold equalsIgnoreCase in Heq. by rewrite Heq.
      * by rewrite (bool_decide_eq_false_2 _ Hid).
    + intros t _. by destruct (bool_decide (id t = id T)).
Qed.

Lemma drop_on_displaying_column_rewrites_case_witness :
  let b := Sample.boardOf [Sample.t1; Sample.t2; Sample.t3] (Some (lit "2")) in
  let event := {| KanbanBoard.active := lit "2";
                  KanbanBoard.over := Some (lit "Todo") |} in
  idsDistinct (tasks b) ∧
  List.find (λ task, bool_decide (id task = KanbanBoard.active event)) (tasks b)
    = Some Sample.t2 ∧
  equalsIgnoreCase (status Sample.t2) (lit "Todo") ∧
  status Sample.t2 ≠ lit "Todo" ∧
  trace (after Sample.accepting b (Mutate (DragEnd event)))
  = [Remote (UpdateEq (onlyStatus (lit "Todo")) (lit "2"))
       (onUpdate Sample.accepting (onlyStatus (lit "Todo")) (lit "2"));
     Toast true (lit "Task moved successfully")].
Proof.
  intros b event.
  assert (H0 : idsDistinct (tasks b)).
  { apply (bool_decide_unpack _). reflexivity. }
  assert (H1 : List.find (λ task, bool_decide (id task = KanbanBoard.active event))
                 (tasks b) = Some Sample.t2) by reflexivity.
  assert (H2 : KanbanBoard.over event = Some (lit "Todo")) by reflexivity.
  assert (H3 : equalsIgnoreCase (status Sample.t2) (lit "Todo")) by reflexivity.
  assert (H4 : status Sample.t2 ≠ lit "Todo") by discriminate.
  assert (H5 : failed (onUpdate Sample.accepting (onlyStatus (lit "Todo"))
                         (id Sample.t2)) = false) by reflexivity.
  split_and!; [exact H0 | exact H1 | exact H3 | exact H4 |].
  exact (proj1 (drop_on_displaying_column_rewrites_case Sample.accepting b event
                  Sample.t2 (lit "Todo") H0 H1 H2 H3 H4 H5)).
Defined.

Lemma find_by_id_absent (l : list Task) (taskId : jsstring) :
  taskId ∉ ids l →
  List.find (λ task, bool_decide (id task = taskId)) l = None.
Proof.
  intros Habsent. destruct (List.find _ l) as [t|] eqn:Hfind; [|done].
  apply find_by_id_elem_of in Hfind as [Hin <-].
  exfalso. apply Habsent. by apply list_elem_of_fmap_2.
Qed.

(** X8. A picked-up card followed by a drop on any target ends with no
    dragged identifier, whatever the store answers and whether or not the
    dragged id is in the collection; when the id is not in the collection
    the store is not called and the collection stays as it was. *)
Theorem pick_up_and_drop_clears_activeId (s : Store) (b : Board)
    (event : KanbanBoard.DragEndEvent) :
  is_Some (KanbanBoard.over event) →
  let b1 := boardAfter s (KanbanBoard.handleDragStart (KanbanBoard.active event)) b in
  let w := after s b1 (Mutate (DragEnd event)) in
  activeId b1 = Some (KanbanBoard.active event) ∧
  activeId (board w) = None ∧
  (KanbanBoard.active event ∉ ids (tasks b) →
   trace w = [] ∧ tasks (board w) = tasks b).
Proof.
  intros Hover b1 w. split_and!; [done | by apply dragEnd_with_target_clears_activeId |].
  intros Habsent. subst w. destruct Hover as [target Hover].
  rewrite after_mutate. simpl. rewrite run_handleDragEnd, Hover. simpl.
  by rewrite find_by_id_absent.
Qed.

Lemma pick_up_and_drop_clears_activeId_witness :
  let b := Sample.boardOf [Sample.t1; Sample.t3] None in
  let event := {| KanbanBoard.active := lit "7";
                  KanbanBoard.over := Some (lit "Done") |} in
  is_Some (KanbanBoard.over event) ∧
  activeId (board (after Sample.failing
                     (boardAfter Sample.failing
                        (KanbanBoard.handleDragStart (KanbanBoard.active event)) b)
                     (Mutate (DragEnd event)))) = None.
Proof.
  intros b event.
  assert (H1 : is_Some (KanbanBoard.over event)) by (eexists; reflexivity).
  split; [exact H1|].
  exact (proj1 (proj2 (pick_up_and_drop_clears_activeId Sample.failing b event H1))).
Defined.

(** X9. Release over no target leaves the dragged identifier set, and a
    later successful delete of that very task does not clear it either:
    the identifier then names no task, so the lookup under the overlay's
    non-null assertion finds nothing. *)
Theorem stale_activeId_after_delete (s : Store) (b : Board) (dragged : jsstring) :
  dragged ≠ [] →
  failed (onDelete s dragged) = false →
  let b1 := boardAfter s (KanbanBoard.handleDragStart dragged) b in
  let b2 := board (after s b1 (Mutate (DragEnd {| KanbanBoard.active := dragged;
                                                   KanbanBoard.over := None |}))) in
  let b3 := board (after s b2 (Mutate (DeleteTask dragged))) in
  activeId b3 = Some dragged ∧
  (dragged ∉ ids (tasks b3)) ∧
  KanbanBoard.overlayTask (tasks b3) (activeId b3) = Some None.
Proof.
  intros Hne Hok b1 b2 b3.
  assert (Hb2 : b2 = b1) by (subst b2; by rewrite dragEnd_without_target).
  assert (Hb3 : b3 = withTasks
                       (List.filter (λ task, bool_decide (id task ≠ dragged)) (tasks b1))
                       b1).
  { subst b3. rewrite Hb2, after_mutate. simpl. rewrite run_handleDeleteTask. simpl.
    unfold failed in Hok. by destruct (failure _). }
  assert (Habsent : dragged ∉ ids (tasks b3)).
  { rewrite Hb3. simpl. intros (t & Hid & Hin)%list_elem_of_fmap.
    apply list_elem_of_In, filter_In in Hin as [_ Hkeep].
    by apply bool_decide_eq_true in Hkeep. }
  split_and!; [by rewrite Hb3 | done |].
  assert (Hact : activeId b3 = Some dragged) by by rewrite Hb3.
  rewrite Hact. unfold KanbanBoard.overlayTask.
  destruct dragged as [|c dragged]; [done|]. simpl.
  by rewrite find_by_id_absent.
Qed.

Lemma stale_activeId_after_delete_witness :
  let b := Sample.boardOf [Sample.t1; Sample.t3] None in
  lit "1" ≠ [] ∧
  failed (onDelete Sample.accepting (lit "1")) = false ∧
  activeId
    (board (after Sample.accepting
              (board (after Sample.accepting
                        (boardAfter Sample.accepting
                           (KanbanBoard.handleDragStart (lit "1")) b)
                        (Mutate (DragEnd {| KanbanBoard.active := lit "1";
                                            KanbanBoard.over := None |}))))
              (Mutate (DeleteTask (lit "1")))))
  = Some (lit "1").
Proof.
  intros b.
  assert (H1 : lit "1" ≠ []) by discriminate.
  assert (H2 : failed (onDelete Sample.accepting (lit "1")) = false) by reflexivity.
  split_and!; [exact H1 | exact H2 |].
  exact (proj1 (stale_activeId_after_delete Sample.accepting b (lit "1") H1 H2)).
Defined.

(** ** Deleting, adding and editing *)

Lemma after_delete_ok (s : Store) (b : Board) (taskId : jsstring) :
  failed (onDelete s taskId) = false →
  after s b (Mutate (DeleteTask taskId))
  = {| board := withTasks
                  (List.filter (λ task, bool_decide (id task ≠ taskId)) (tasks b)) b;
       trace := [Remote (DeleteEq taskId) (onDelete s taskId);
                 Toast true (lit "Task deleted successfully")] |}.
Proof.
  intros Hok. rewrite after_mutate. simpl. rewrite run_handleDeleteTask. simpl.
  unfold failed in Hok. by destruct (failure _).
Qed.

Lemma after_update_ok (s : Store) (b : Board) (taskId : jsstring)
    (updates : PartialTask) :
  failed (onUpdate s updates taskId) = false →
  after s b (Mutate (UpdateTask taskId updates))
  = {| board := withTasks
                  (List.map (λ task, if bool_decide (id task = taskId)
                                     then spread task updates else task) (tasks b)) b;
       trace := [Remote (UpdateEq updates taskId) (onUpdate s updates taskId);
                 Toast true (lit "Task updated successfully")] |}.
Proof.
  intros Hok. rewrite after_mutate. simpl. rewrite run_handleUpdateTask. simpl.
  unfold failed in Hok. by destruct (failure _).
Qed.

Lemma after_add_ok (s : Store) (b : Board) (columnId title description : jsstring)
    (record : Task) :
  onInsert s {| new_title := title; new_description := description;
                new_status := columnId; new_priority := medium |}
    = Fulfilled {| data := Some record; Supabase.error := None |} →
  tasks (board (after s b (Mutate (AddTask columnId title description))))
  = tasks b ++ [record].
Proof.
  intros Hok. rewrite after_mutate. simpl. rewrite run_handleAddTask. simpl.
  by rewrite Hok.
Qed.

Lemma not_elem_of_ids_filter (l : list Task) (taskId : jsstring) :
  taskId ∉ ids (List.filter (λ task, bool_decide (id task ≠ taskId)) l).
Proof.
  intros (t & Hid & Hin)%list_elem_of_fmap.
  apply list_elem_of_In, filter_In in Hin as [_ Hkeep].
  by apply bool_decide_eq_true in Hkeep.
Qed.

Lemma map_by_id_absent (l : list Task) (taskId : jsstring) (updates : PartialTask) :
  taskId ∉ ids l →
  List.map (λ task, if bool_decide (id task = taskId)
                    then spread task updates else task) l = l.
Proof.
  unfold ids. induction l as [|t l IH]; intros Habsent; [done|].
  rewrite fmap_cons in Habsent. apply not_elem_of_cons in Habsent as [Hne Habsent].
  simpl. rewrite IH by done. by rewrite bool_decide_eq_false_2.
Qed.

(** X10. A successful delete removes every task under the given id and
    no other: afterwards the id is absent, the remaining tasks are exactly
    those with another id, and they keep their relative order. *)
Theorem delete_success_removes_id (s : Store) (b : Board) (taskId : jsstring) :
  failed (onDelete s taskId) = false →
  let l' := tasks (board (after s b (Mutate (DeleteTask taskId)))) in
  (taskId ∉ ids l') ∧
  (∀ t, t ∈ l' ↔ t ∈ tasks b ∧ id t ≠ taskId) ∧
  l' `sublist_of` tasks b.
Proof.
  intros Hok l'. subst l'. rewrite after_delete_ok by done. simpl.
  split_and!.
  - apply not_elem_of_ids_filter.
  - intros t. rewrite !list_elem_of_In, filter_In, bool_decide_eq_true. tauto.
  - apply filter_sublist.
Qed.

Lemma delete_success_removes_id_witness :
  let b := Sample.boardOf [Sample.t1; Sample.t2; Sample.t3] None in
  failed (onDelete Sample.accepting (lit "2")) = false ∧
  (lit "2" ∉ ids (tasks (board (after Sample.accepting b
                                  (Mutate (DeleteTask (lit "2"))))))).
Proof.
  intros b.
  assert (H1 : failed (onDelete Sample.accepting (lit "2")) = false) by reflexivity.
  split; [exact H1|].
  exact (proj1 (delete_success_removes_id Sample.accepting b (lit "2") H1)).
Defined.

(** X11. Delete is idempotent on the collection: once a delete of an id
    has succeeded, another delete of the same id leaves the collection as
    it is, whatever the store answers the second time. *)
Theorem delete_twice_idempotent (s1 s2 : Store) (b : Board) (taskId : jsstring) :
  failed (onDelete s1 taskId) = false →
  let b1 := board (after s1 b (Mutate (DeleteTask taskId))) in
  tasks (board (after s2 b1 (Mutate (DeleteTask taskId)))) = tasks b1.
Proof.
  intros Hok b1. subst b1. rewrite (after_delete_ok s1) by done. simpl.
  rewrite after_mutate. simpl. rewrite run_handleDeleteTask. simpl.
  destruct (failure _); simpl; [done|].
  apply filter_other_ids_absent, not_elem_of_ids_filter.
Qed.

Lemma delete_twice_idempotent_witness :
  let b := Sample.boardOf [Sample.t1; Sample.t2; Sample.t3] None in
  failed (onDelete Sample.accepting (lit "2")) = false ∧
  tasks (board (after Sample.accepting
                  (board (after Sample.accepting b (Mutate (DeleteTask (lit "2")))))
                  (Mutate (DeleteTask (lit "2")))))
  = [Sample.t1; Sample.t3].
Proof.
  intros b.
  assert (H1 : failed (onDelete Sample.accepting (lit "2")) = false) by reflexivity.
  split; [exact H1|].
  by rewrite (delete_twice_idempotent Sample.accepting Sample.accepting b (lit "2") H1).
Defined.

(** X12. Add then delete is a round trip: when the store returns a record
    under an id the collection does not hold yet, a later successful delete
    of that id gives back the collection as it was before the add. *)
Theorem add_then_delete_round_trip (s1 s2 : Store) (b : Board)
    (columnId title description : jsstring) (record : Task) :
  onInsert s1 {| new_title := title; new_description := description;
                 new_status := columnId; new_priority := medium |}
    = Fulfilled {| data := Some record; Supabase.error := None |} →
  id record ∉ ids (tasks b) →
  failed (onDelete s2 (id record)) = false →
  let b1 := board (after s1 b (Mutate (AddTask columnId title description))) in
  tasks (board (after s2 b1 (Mutate (DeleteTask (id record))))) = tasks b.
Proof.
  intros Hins Hfresh Hok b1.
  rewrite after_delete_ok by done. simpl. subst b1.
  rewrite (after_add_ok s1 b columnId title description record) by done.
  rewrite List.filter_app. simpl.
  rewrite filter_other_ids_absent by done.
  rewrite bool_decide_eq_false_2 by (intros Hne; by apply Hne).
  apply app_nil_r.
Qed.

Lemma add_then_delete_round_trip_witness :
  let b := Sample.boardOf [Sample.t1; Sample.t3] None in
  let record := {| id := lit "9"; title := lit "Buy milk"; description := [];
                   status := lit "Todo"; priority := medium; assignee := None |} in
  onInsert Sample.accepting
    {| new_title := lit "Buy milk"; new_description := [];
       new_status := lit "Todo"; new_priority := medium |}
    = Fulfilled {| data := Some record; Supabase.error := None |} ∧
  (id record ∉ ids (tasks b)) ∧
  failed (onDelete Sample.accepting (id record)) = false ∧
  tasks (board (after Sample.accepting
                  (board (after Sample.accepting b
                            (Mutate (AddTask (lit "Todo") (lit "Buy milk") []))))
                  (Mutate (DeleteTask (id record))))) = tasks b.
Proof.
  intros b record.
  assert (H1 : onInsert Sample.accepting
                 {| new_title := lit "Buy milk"; new_description := [];
                    new_status := lit "Todo"; new_priority := medium |}
               = Fulfilled {| data := Some record; Supabase.error := None |})
    by reflexivity.
  assert (H2 : id record ∉ ids (tasks b)).
  { intros Hin.
    repeat (apply elem_of_cons in Hin as [Hin | Hin]; [discriminate Hin|]).
    by apply elem_of_nil in Hin. }
  assert (H3 : failed (onDelete Sample.accepting (id record)) = false) by reflexivity.
  split_and!; [exact H1 | exact H2 | exact H3 |].
  exact (add_then_delete_round_trip Sample.accepting Sample.accepting b
           (lit "Todo") (lit "Buy milk") [] record H1 H2 H3).
Defined.

(** X13. An edit of an id that no task of the collection carries, once the
    store accepts it, changes nothing locally and still shows the success
    toast. *)
Theorem update_absent_id_reports_success (s : Store) (b : Board)
    (taskId : jsstring) (updates : PartialTask) :
  taskId ∉ ids (tasks b) →
  failed (onUpdate s updates taskId) = false →
  board (after s b (Mutate (UpdateTask taskId updates))) = b ∧
  trace (after s b (Mutate (UpdateTask taskId updates)))
  = [Remote (UpdateEq updates taskId) (onUpdate s updates taskId);
     Toast true (lit "Task updated successfully")].
Proof.
  intros Habsent Hok. rewrite after_update_ok by done. simpl.
  rewrite map_by_id_absent by done. by destruct b.
Qed.

Lemma update_absent_id_reports_success_witness :
  let b := Sample.boardOf [Sample.t1; Sample.t3] None in
  (lit "7" ∉ ids (tasks b)) ∧
  failed (onUpdate Sample.accepting Sample.describe (lit "7")) = false ∧
  board (after Sample.accepting b (Mutate (UpdateTask (lit "7") Sample.describe))) = b.
Proof.
  intros b.
  assert (H1 : lit "7" ∉ ids (tasks b)).
  { intros Hin.
    repeat (apply elem_of_cons in Hin as [Hin | Hin]; [discriminate Hin|]).
    by apply elem_of_nil in Hin. }
  assert (H2 : failed (onUpdate Sample.accepting Sample.describe (lit "7")) = false)
    by reflexivity.
  split_and!; [exact H1 | exact H2 |].
  exact (proj1 (update_absent_id_reports_success Sample.accepting b (lit "7")
                  Sample.describe H1 H2)).
Defined.

(** ** The card's save and the column's form *)

Lemma map_by_id_fixed (l : list Task) (T : Task) (updates : PartialTask) :
  idsDistinct l → T ∈ l → spread T updates = T →
  List.map (λ task, if bool_decide (id task = id T)
                    then spread task updates else task) l = l.
Proof.
  intros Hnd HT Hfix. rewrite <- (map_id l) at 2.
  apply map_ext_in. intros t Ht%list_elem_of_In.
  case_bool_decide as Hid; [|done].
  by rewrite (same_id_same_task l t T).
Qed.



(** X15. There is no dirty check: saving a card whose editor still holds
    the task's own title and description sends the update to the store all
    the same, and, the ids being distinct, leaves the board exactly as it
    was. *)
Theorem save_without_edits_calls_store (s : Store) (b : Board) (T : Task) :
  idsDistinct (tasks b) →
  T ∈ tasks b →
  trim (title T) ≠ [] →
  failed (onUpdate s (Card.titleAndDescription (title T) (description T)) (id T))
    = false →
  snd (run s (snd (saveCard (tasks b) T (Card.initialEditor T))) b)
  = {| board := b;
       trace := [Remote (UpdateEq (Card.titleAndDescription (title T) (description T))
                           (id T))
                   (onUpdate s (Card.titleAndDescription (title T) (description T))
                      (id T));
                 Toast true (lit "Task updated successfully")] |}.
Proof.
  intros Hnd HT Hne Hok. unfold saveCard.
  rewrite card_save_forwards by done. simpl.
  rewrite run_handleUpdateTask. simpl. unfold failed in Hok.
  destruct (failure _); [done|]. simpl.
  rewrite map_by_id_fixed; [by destruct b | done | done | by destruct T].
Qed.

Lemma save_without_edits_calls_store_witness :
  let b := Sample.boardOf [Sample.t1; Sample.t3] None in
  idsDistinct (tasks b) ∧
  Sample.t1 ∈ tasks b ∧
  trim (title Sample.t1) ≠ [] ∧
  board (snd (run Sample.accepting
                (snd (saveCard (tasks b) Sample.t1 (Card.initialEditor Sample.t1))) b))
  = b.
Proof.
  intros b.
  assert (H1 : idsDistinct (tasks b)).
  { apply (bool_decide_unpack _). reflexivity. }
  assert (H2 : Sample.t1 ∈ tasks b) by apply list_elem_of_here.
  assert (H3 : trim (title Sample.t1) ≠ []) by discriminate.
  assert (H4 : failed (onUpdate Sample.accepting
                         (Card.titleAndDescription (title Sample.t1)
                            (description Sample.t1)) (id Sample.t1)) = false)
    by reflexivity.
  split_and!; [exact H1 | exact H2 | exact H3 |].
  by rewrite (save_without_edits_calls_store Sample.accepting b Sample.t1 H1 H2 H3 H4).
Defined.

(** X16. The new-task form does not wait for the store: a submission with
    a non-blank title closes and empties the form at once, and when the
    insert fails or resolves without a record nothing is added, so the
    typed text is gone without a task to show for it. *)
Theorem submit_resets_form_before_store_answers (s : Store) (b : Board)
    (columnId : jsstring) (form : Column.Form) :
  ¬ whitespaceOnly (Column.newTaskTitle form) →
  let row := {| new_title := trim (Column.newTaskTitle form);
                new_description := trim (Column.newTaskDescription form);
                new_status := columnId; new_priority := medium |} in
  let submitted := submitForm (tasks b) columnId form in
  fst submitted
  = {| Column.isAddingTask := false; Column.newTaskTitle := [];
       Column.newTaskDescription := [] |} ∧
  ((∀ record, onInsert s row
              ≠ Fulfilled {| data := Some record; Supabase.error := None |}) →
   boardAfter s (snd submitted) b = b).
Proof.
  intros Hws row submitted. subst submitted.
  unfold submitForm, Column.handleAddTask, boardAfter.
  rewrite truthy_trim, bool_decide_eq_false_2 by done. simpl.
  split; [done|]. intros Hnone. rewrite run_handleAddTask. simpl. fold row.
  destruct (onInsert s row) as [[[record|] [err|]]|reason]; simpl; try done.
  by destruct (Hnone record).
Qed.

Lemma submit_resets_form_before_store_answers_witness :
  let b := Sample.boardOf [Sample.t1] None in
  let form := {| Column.isAddingTask := true; Column.newTaskTitle := lit "Call Ana";
                 Column.newTaskDescription := lit "before noon" |} in
  ¬ whitespaceOnly (Column.newTaskTitle form) ∧
  fst (submitForm (tasks b) (lit "Todo") form)
  = {| Column.isAddingTask := false; Column.newTaskTitle := [];
       Column.newTaskDescription := [] |} ∧
  boardAfter Sample.failing (snd (submitForm (tasks b) (lit "Todo") form)) b = b.
Proof.
  intros b form.
  assert (H1 : ¬ whitespaceOnly (Column.newTaskTitle form)).
  { intros Hws. apply Forall_cons_1 in Hws as [Hc _]. discriminate Hc. }
  split; [exact H1|].
  destruct (submit_resets_form_before_store_answers Sample.failing b (lit "Todo")
              form H1) as [Hform Hboard].
  split; [exact Hform|]. apply Hboard. intros record. discriminate.
Defined.

(** X17. Submitting twice in a row creates at most one task: whatever the
    form held, the form left by a submission is blank, and submitting it
    again calls nothing. *)
Theorem second_submit_is_noop (tasks : list Task) (columnId : jsstring)
    (form : Column.Form) :
  let form' := fst (submitForm tasks columnId form) in
  Column.addDisabled form' = true ∧
  submitForm tasks columnId form' = (form', Ret tt).
Proof.
  intros form'. subst form'. unfold submitForm, Column.handleAddTask, Column.addDisabled.
  destruct (truthy (trim (Column.newTaskTitle form))) eqn:Hfirst; simpl.
  - done.
  - by rewrite Hfirst.
Qed.

(** X18. The keyboard cannot get past the disabled button: while "Add
    Task" is disabled, no key press in the title input calls anything or
    changes the form. *)
Theorem enter_respects_disabled_button (tasks : list Task) (columnId : jsstring)
    (e : Column.KeyboardEvent) (form : Column.Form) :
  Column.addDisabled form = true →
  snd (pressKey tasks columnId e form) = (form, Ret tt).
Proof.
  unfold Column.addDisabled, pressKey, Column.handleKeyPress, Column.handleAddTask.
  intros Hdisabled%negb_true_iff. rewrite Hdisabled.
  by destruct (_ && _).
Qed.

Lemma enter_respects_disabled_button_witness :
  let form := {| Column.isAddingTask := true; Column.newTaskTitle := lit "  ";
                 Column.newTaskDescription := lit "note" |} in
  let e := {| Column.key := lit "Enter"; Column.shiftKey := false |} in
  Column.addDisabled form = true ∧
  snd (pressKey [Sample.t1] (lit "Todo") e form) = (form, Ret tt).
Proof.
  intros form e.
  assert (H1 : Column.addDisabled form = true) by reflexivity.
  split; [exact H1|].
  exact (enter_respects_disabled_button [Sample.t1] (lit "Todo") e form H1).
Defined.

(** ** More on the view *)

Lemma filter_all {A} (p : A → bool) (l : list A) :
  (∀ x, x ∈ l → p x = true) → List.filter p l = l.
Proof.
  induction l as [|x l IH]; intros Hall; [done|]. simpl.
  rewrite Hall by apply list_elem_of_here.
  by rewrite IH by (intros y Hy; apply Hall; by apply list_elem_of_further).
Qed.

Lemma filter_sublist_mono {A} (p q : A → bool) (l : list A) :
  (∀ x, p x = true → q x = true) →
  List.filter p l `sublist_of` List.filter q l.
Proof.
  intros Hpq. induction l as [|x l IH]; [done|]. simpl.
  destruct (p x) eqn:Hp.
  - rewrite (Hpq x Hp). by constructor.
  - destruct (q x); [by constructor | done].
Qed.

Lemma filter_sublist_proper {A} (p : A → bool) (l1 l2 : list A) :
  l1 `sublist_of` l2 → List.filter p l1 `sublist_of` List.filter p l2.
Proof.
  induction 1 as [|x l1 l2 _ IH|x l1 l2 _ IH]; simpl; [done | |].
  - destruct (p x); [by constructor | done].
  - destruct (p x); [by constructor | done].
Qed.

(** X19. The empty search shows everything: with an empty query the search
    filter returns the collection itself, so each column lists exactly the
    tasks whose status matches it. *)
Theorem empty_query_shows_all `{CaseConversion} (tasks : list Task) :
  KanbanBoard.filteredTasks tasks [] = tasks ∧
  ∀ C T, C ∈ KanbanBoard.defaultColumns →
         (T ∈ KanbanBoard.columnTasks tasks [] C ↔
          T ∈ tasks ∧ equalsIgnoreCase (status T) C).
Proof.
  assert (Hall : KanbanBoard.filteredTasks tasks [] = tasks).
  { unfold KanbanBoard.filteredTasks. apply filter_all. intros T _.
    rewrite (toLowerCase_ascii []) by constructor. simpl.
    apply includes_spec. by exists [], (toLowerCase (title T)). }
  split; [done|]. intros C T HC.
  rewrite columnTasks_unfold, decide_True, Hall by done.
  unfold equalsIgnoreCase.
  by rewrite list_elem_of_In, filter_In, bool_decide_eq_true, <- list_elem_of_In.
Qed.

(** X20. Typing more narrows the view: when the lower-cased query [Q2]
    occurs inside the lower-cased query [Q1], every column's list for [Q1]
    is a subsequence of its list for [Q2]. *)
Theorem longer_query_narrows `{CaseConversion} (tasks : list Task)
    (Q1 Q2 C : jsstring) :
  (∃ pre post, toLowerCase Q1 = pre ++ toLowerCase Q2 ++ post) →
  KanbanBoard.columnTasks tasks Q1 C `sublist_of` KanbanBoard.columnTasks tasks Q2 C.
Proof.
  intros (pre & post & HQ). rewrite !columnTasks_unfold. case_decide; [|done].
  apply filter_sublist_proper. unfold KanbanBoard.filteredTasks.
  apply filter_sublist_mono. intros T.
  rewrite !includes_spec. intros (pre' & post' & ->). rewrite HQ.
  exists (pre' ++ pre), (post ++ post'). by rewrite <- !app_assoc.
Qed.

Lemma longer_query_narrows_witness :
  let tasks := [Sample.t1; Sample.t2; Sample.t3] in
  (∃ pre post, toLowerCase (lit "Buy M") = pre ++ toLowerCase (lit "UY") ++ post) ∧
  KanbanBoard.columnTasks tasks (lit "Buy M") (lit "Todo")
    `sublist_of` KanbanBoard.columnTasks tasks (lit "UY") (lit "Todo").
Proof.
  intros tasks.
  assert (H1 : ∃ pre post,
             toLowerCase (lit "Buy M") = pre ++ toLowerCase (lit "UY") ++ post).
  { exists (lit "b"), (lit " m"). reflexivity. }
  split; [exact H1|].
  exact (longer_query_narrows tasks (lit "Buy M") (lit "UY") (lit "Todo") H1).
Defined.

(** X21. The count badges add up to the number of search matches whose
    status is one of the column identifiers, case ignored: each such task
    is counted once, a task with any other status nowhere. *)
Theorem column_counts_add_up `{CaseConversion} (tasks : list Task) (Q : jsstring) :
  length (KanbanBoard.columnTasks tasks Q (lit "Todo"))
  + length (KanbanBoard.columnTasks tasks Q (lit "In Progress"))
  + length (KanbanBoard.columnTasks tasks Q (lit "Done"))
  = length (List.filter
              (λ task, bool_decide
                         (toLowerCase (status task)
                            ∈ toLowerCase <$> KanbanBoard.defaultColumns))
              (KanbanBoard.filteredTasks tasks Q)).
Proof.
  rewrite !columnTasks_unfold.
  rewrite !decide_True
    by (unfold KanbanBoard.defaultColumns;
        repeat (apply list_elem_of_here || apply list_elem_of_further)).
  pose proof defaultColumns_lower as Hlow. rewrite Hlow.
  unfold KanbanBoard.defaultColumns in Hlow. simpl in Hlow.
  injection Hlow as -> -> ->.
  induction (KanbanBoard.filteredTasks tasks Q) as [|t l IH]; [done|].
  cbn [List.filter].
  destruct (decide (toLowerCase (status t) = lit "todo")) as [E1 | E1];
    destruct (decide (toLowerCase (status t) = lit "in progress")) as [E2 | E2];
    destruct (decide (toLowerCase (status t) = lit "done")) as [E3 | E3];
    try (rewrite E1 in E2; discriminate E2);
    try (rewrite E1 in E3; discriminate E3);
    try (rewrite E2 in E3; discriminate E3);
    rewrite ?(bool_decide_eq_true_2 _ E1), ?(bool_decide_eq_false_2 _ E1),
      ?(bool_decide_eq_true_2 _ E2), ?(bool_decide_eq_false_2 _ E2),
      ?(bool_decide_eq_true_2 _ E3), ?(bool_decide_eq_false_2 _ E3).
  - rewrite bool_decide_eq_true_2 by (rewrite E1; apply list_elem_of_here).
    simpl. lia.
  - rewrite bool_decide_eq_true_2
      by (rewrite E2; apply list_elem_of_further, list_elem_of_here).
    simpl. lia.
  - rewrite bool_decide_eq_true_2
      by (rewrite E3; do 2 apply list_elem_of_further; apply list_elem_of_here).
    simpl. lia.
  - rewrite bool_decide_eq_false_2; [exact IH|].
    intros Hin.
    repeat (apply elem_of_cons in Hin as [Hin | Hin]; [done|]).
    by apply elem_of_nil in Hin.
Qed.

(** X22. A task the store has just created shows up at the bottom of the
    column it matches and nowhere else: after a successful add, each
    column's list is its former list, followed by the new record when the
    record's title passes the search and its status matches the column. *)
Theorem added_task_goes_to_bottom_of_column `{CaseConversion} (s : Store)
    (b : Board) (columnId newTitle newDescription : jsstring) (record : Task)
    (Q C : jsstring) :
  onInsert s {| new_title := newTitle; new_description := newDescription;
                new_status := columnId; new_priority := medium |}
    = Fulfilled {| data := Some record; Supabase.error := None |} →
  C ∈ KanbanBoard.defaultColumns →
  KanbanBoard.columnTasks
    (tasks (board (after s b (Mutate (AddTask columnId newTitle newDescription)))))
    Q C
  = KanbanBoard.columnTasks (tasks b) Q C ++
    (if includes (toLowerCase (title record)) (toLowerCase Q)
        && bool_decide (toLowerCase (status record) = toLowerCase C)
     then [record] else []).
Proof.
  intros Hins HC.
  rewrite (after_add_ok s b columnId newTitle newDescription record Hins).
  rewrite !columnTasks_unfold, !decide_True by done.
  unfold KanbanBoard.filteredTasks. rewrite !List.filter_app. f_equal. simpl.
  destruct (includes _ _); simpl; [|done].
  by destruct (bool_decide _).
Qed.

Lemma added_task_goes_to_bottom_of_column_witness :
  let b := Sample.boardOf [Sample.t1; Sample.t3] None in
  let record := {| id := lit "9"; title := lit "Buy bread"; description := [];
                   status := lit "Todo"; priority := medium; assignee := None |} in
  onInsert Sample.accepting
    {| new_title := lit "Buy bread"; new_description := [];
       new_status := lit "Todo"; new_priority := medium |}
    = Fulfilled {| data := Some record; Supabase.error := None |} ∧
  lit "Todo" ∈ KanbanBoard.defaultColumns ∧
  KanbanBoard.columnTasks
    (tasks (board (after Sample.accepting b
                     (Mutate (AddTask (lit "Todo") (lit "Buy bread") [])))))
    (lit "buy") (lit "Todo")
  = [Sample.t1; record].
Proof.
  intros b record.
  assert (H1 : onInsert Sample.accepting
                 {| new_title := lit "Buy bread"; new_description := [];
                    new_status := lit "Todo"; new_priority := medium |}
               = Fulfilled {| data := Some record; Supabase.error := None |})
    by reflexivity.
  assert (H2 : lit "Todo" ∈ KanbanBoard.defaultColumns) by apply list_elem_of_here.
  split_and!; [exact H1 | exact H2 |].
  by rewrite (added_task_goes_to_bottom_of_column Sample.accepting b (lit "Todo")
                (lit "Buy bread") [] record (lit "buy") (lit "Todo") H1 H2).
Defined.

(** ** What no handler does *)

(** X23. No handler writes the search query; a load leaves the dragged
    identifier alone; add, edit and delete leave the dragged identifier,
    the loading flag and the error cell alone; a drag completion leaves
    the loading flag and the error cell alone. *)
Theorem handlers_leave_other_cells (s : Store) (b : Board) (op : Operation) :
  let b' := board (after s b op) in
  searchQuery b' = searchQuery b ∧
  match op with
  | Load => activeId b' = activeId b
  | Mutate (DragEnd _) => isLoading b' = isLoading b ∧ error b' = error b
  | Mutate _ =>
      activeId b' = activeId b ∧ isLoading b' = isLoading b ∧ error b' = error b
  end.
Proof.
  intros b'. subst b'. unfold after.
  destruct op as [|[columnId newTitle newDescription | taskId
    | taskId updates | event]]; simpl.
  - rewrite run_fetchTasks. simpl.
    by destruct (onSelect s) as [[rows [err|]]|reason].
  - rewrite run_handleAddTask. simpl.
    by destruct (onInsert s _) as [[[record|] [err|]]|reason].
  - rewrite run_handleDeleteTask. simpl. by destruct (failure _).
  - rewrite run_handleUpdateTask. simpl. by destruct (failure _).
  - rewrite run_handleDragEnd.
    destruct (KanbanBoard.over event) as [overColumn|]; simpl; [|done].
    destruct (List.find _ _) as [activeTask|]; simpl; [|done].
    case_bool_decide; simpl; [|done].
    by destruct (failure _).
Qed.

(** X24. Every operation calls the store at most once, and shows at most
    one toast, never before and never without the call: the trace is
    empty, or one remote call followed by at most one toast. *)
Theorem one_call_then_at_most_one_toast (s : Store) (b : Board) (op : Operation) :
  match trace (after s b op) with
  | [] => True
  | ev :: rest =>
      isRemote ev = true ∧ length rest ≤ 1 ∧ Forall (λ e, isToast e = true) rest
  end.
Proof.
  unfold after.
  destruct op as [|[columnId newTitle newDescription | taskId
    | taskId updates | event]]; simpl.
  - rewrite run_fetchTasks. simpl.
    destruct (onSelect s) as [[rows [err|]]|reason]; simpl;
      split_and!; (done || lia || by repeat constructor).
  - rewrite run_handleAddTask. simpl.
    destruct (onInsert s _) as [[[record|] [err|]]|reason]; simpl;
      split_and!; (done || lia || by repeat constructor).
  - rewrite run_handleDeleteTask. simpl.
    destruct (failure _); simpl;
      split_and!; (done || lia || by repeat constructor).
  - rewrite run_handleUpdateTask. simpl.
    destruct (failure _); simpl;
      split_and!; (done || lia || by repeat constructor).
  - rewrite run_handleDragEnd.
    destruct (KanbanBoard.over event) as [overColumn|]; simpl; [|done].
    destruct (List.find _ _) as [activeTask|]; simpl; [|done].
    case_bool_decide; simpl; [|done].
    destruct (failure _); simpl;
      split_and!; (done || lia || by repeat constructor).
Qed.

(** X25. An insert that resolves with neither an error nor a record is
    passed over in silence: the board is unchanged and no toast is shown,
    neither of success nor of failure. *)
Theorem insert_without_record_is_silent (s : Store) (b : Board)
    (columnId newTitle newDescription : jsstring) :
  onInsert s {| new_title := newTitle; new_description := newDescription;
                new_status := columnId; new_priority := medium |}
    = Fulfilled {| data := None; Supabase.error := None |} →
  board (after s b (Mutate (AddTask columnId newTitle newDescription))) = b ∧
  Forall (λ ev, isToast ev = false)
    (trace (after s b (Mutate (AddTask columnId newTitle newDescription)))).
Proof.
  intros Hnone. rewrite after_mutate. simpl. rewrite run_handleAddTask. simpl.
  rewrite Hnone. simpl. split; [done|]. by repeat constructor.
Qed.

Lemma insert_without_record_is_silent_witness :
  let b := Sample.boardOf [Sample.t1] None in
  let s := {| onSelect := onSelect Sample.accepting;
              onInsert := λ _, Sample.ok None;
              onUpdate := onUpdate Sample.accepting;
              onDelete := onDelete Sample.accepting |} in
  onInsert s {| new_title := lit "Call Ana"; new_description := [];
                new_status := lit "Todo"; new_priority := medium |}
    = Fulfilled {| data := None; Supabase.error := None |} ∧
  board (after s b (Mutate (AddTask (lit "Todo") (lit "Call Ana") []))) = b.
Proof.
  intros b s.
  assert (H1 : onInsert s {| new_title := lit "Call Ana"; new_description := [];
                             new_status := lit "Todo"; new_priority := medium |}
               = Fulfilled {| data := None; Supabase.error := None |})
    by reflexivity.
  split; [exact H1|].
  exact (proj1 (insert_without_record_is_silent s b (lit "Todo") (lit "Call Ana")
                  [] H1)).
Defined.

(** ** Handlers of one render *)

(** X26. Last response wins.  Two mutations started from the same render
    both work on the collection of that render.  When the one that
    completes second succeeds, the collection it stores is the one it
    would have stored alone: whatever the first one changed is lost. *)
Theorem last_response_wins (s : Store) (b : Board) (m1 m2 : Mutation) :
  Exists (λ ev, isSuccessToast ev = true) (trace (after s b (Mutate m2))) →
  tasks (boardAfter s (mutate (tasks b) m2)
           (boardAfter s (mutate (tasks b) m1) b))
  = tasks (board (after s b (Mutate m2))).
Proof.
  rewrite after_mutate. unfold boardAfter.
  generalize (board (snd (run s (mutate (tasks b) m1) b))) as b1.
  intros b1. destruct m2 as [columnId newTitle newDescription | taskId
    | taskId updates | event]; simpl.
  - rewrite !run_handleAddTask. simpl.
    destruct (onInsert s _) as [[[record|] [err|]]|reason]; simpl;
      rewrite ?Exists_cons, ?Exists_nil; simpl; intuition discriminate.
  - rewrite !run_handleDeleteTask. simpl.
    destruct (failure _); simpl; [|done].
    rewrite ?Exists_cons, ?Exists_nil; simpl; intuition discriminate.
  - rewrite !run_handleUpdateTask. simpl.
    destruct (failure _); simpl; [|done].
    rewrite ?Exists_cons, ?Exists_nil; simpl; intuition discriminate.
  - rewrite !run_handleDragEnd.
    destruct (KanbanBoard.over event) as [overColumn|]; simpl;
      [|by rewrite Exists_nil].
    destruct (List.find _ _) as [activeTask|]; simpl; [|by rewrite Exists_nil].
    case_bool_decide; simpl; [|by rewrite Exists_nil].
    destruct (failure _); simpl; [|done].
    rewrite ?Exists_cons, ?Exists_nil; simpl; intuition discriminate.
Qed.

Lemma last_response_wins_witness :
  let b := Sample.boardOf [Sample.t1] None in
  let m1 := AddTask (lit "Todo") (lit "Call Ana") [] in
  let m2 := DeleteTask (lit "1") in
  Exists (λ ev, isSuccessToast ev = true)
    (trace (after Sample.accepting b (Mutate m2))) ∧
  tasks (boardAfter Sample.accepting (mutate (tasks b) m1) b)
  = [Sample.t1;
     {| id := lit "9"; title := lit "Call Ana"; description := [];
        status := lit "Todo"; priority := medium; assignee := None |}] ∧
  tasks (boardAfter Sample.accepting (mutate (tasks b) m2)
           (boardAfter Sample.accepting (mutate (tasks b) m1) b)) = [].
Proof.
  intros b m1 m2.
  assert (H1 : Exists (λ ev, isSuccessToast ev = true)
                 (trace (after Sample.accepting b (Mutate m2)))).
  { apply Exists_cons_tl, Exists_cons_hd. reflexivity. }
  split_and!; [exact H1 | reflexivity |].
  by rewrite (last_response_wins Sample.accepting b m1 m2 H1).
Defined.
